(** * stockstalk: a shallow embedding of [main.go]

    The program keeps a portfolio of stock purchases in a JSON file,
    recomputes the annualised compounded return of every purchase against a
    freshly quoted price, appends the result to a per-symbol history, writes
    the file back and prints (and, in the later revision, mails) a report.

    The source comes in two revisions of the same file.  The functions
    [currentRate], [parseConfig], [writeConfig], [parseInvestmentLine] and
    [addInvestment] are identical in both and are embedded once; [analysis],
    [printAnalysis] and [main] differ and are embedded per revision, in the
    modules [Rev1] (first listing) and [Rev2] (second listing).

    Go's [float64] is Rocq's primitive binary64 [float]; the operating system,
    the clock, the quote provider and the mail service are fields of an
    explicit [World] that every effectful function threads. *)

From Stdlib Require Import ZArith String Ascii List Lia DecimalString.
From Stdlib Require Import Floats.PrimFloat Floats.FloatOps Floats.SpecFloat.
From Stdlib Require Import Numbers.Cyclic.Int63.Uint63.
From stdpp Require Import gmap strings list pretty.

Local Open Scope string_scope.
Local Open Scope Z_scope.

(** ** Go values shared by every package *)

(** Go's [error] values, by the type that carries them. *)
Inductive error : Type :=
| errors_New (text : string)
| ParseError (layout value problem : string)
| NumError (func num : string)
| PathError (op path cause : string)
| SyntaxError (text : string)
| UnsupportedValueError (what : string)
| RemoteError (service text : string).

Inductive result (A : Type) : Type :=
| Ok (a : A)
| Err (e : error).
Arguments Ok {A} a.
Arguments Err {A} e.

(** [float64(z)] for an [int64] of magnitude below [2^63]. *)
Definition float64 (z : Z) : float :=
  if z <? 0 then (- of_uint63 (Uint63.of_Z (- z)))%float
  else of_uint63 (Uint63.of_Z z).

(** [math.IsNaN(f) || math.IsInf(f, 0)]. *)
Definition nonfinite (f : float) : bool := is_nan f || is_infinity f.

(** ** Package [time] *)
Module time.

(** An instant: seconds and nanoseconds since the Unix epoch, and the
    offset east of UTC, in seconds, of the zone it is presented in. *)
Record Time : Type := mkTime { unix : Z; nsec : Z; offset : Z }.

Definition Nanosecond : Z := 1.
Definition Second : Z := 1000000000 * Nanosecond.
Definition minDuration : Z := - 2 ^ 63.
Definition maxDuration : Z := 2 ^ 63 - 1.

(** [t.Sub(u)]: an [int64] count of nanoseconds, pinned to the largest or
    smallest [Duration] when the difference does not fit. *)
Definition Sub (t u : Time) : Z :=
  let d := (unix t - unix u) * Second + (nsec t - nsec u) in
  if d <? minDuration then minDuration
  else if maxDuration <? d then maxDuration
  else d.

(** [d.Seconds()]. *)
Definition Seconds (d : Z) : float :=
  let sec := Z.quot d Second in
  let nsec := Z.rem d Second in
  (float64 sec + float64 nsec / 1e9)%float.

(** *** Calendar dates

    The proleptic Gregorian calendar, as [Time.Date], [time.Date] and
    [daysIn] compute it. *)

Definition isLeap (year : Z) : bool :=
  (year mod 4 =? 0) && (negb (year mod 100 =? 0) || (year mod 400 =? 0)).

Definition daysIn (m year : Z) : Z :=
  if (m =? 2) && isLeap year then 29
  else nth (Z.to_nat m) [0; 31; 28; 31; 30; 31; 30; 31; 31; 30; 31; 30; 31] 0.

(** Days from 1 January 1970 to the given day. *)
Definition daysFromCivil (y m d : Z) : Z :=
  let y' := if m <=? 2 then y - 1 else y in
  let era := y' / 400 in
  let yoe := y' - era * 400 in
  let mp := (m + 9) mod 12 in
  let doy := (153 * mp + 2) / 5 + d - 1 in
  let doe := yoe * 365 + yoe / 4 - yoe / 100 + doy in
  era * 146097 + doe - 719468.

(** Year, month and day of the day that many days after 1 January 1970. *)
Definition civil (days : Z) : Z * Z * Z :=
  let z := days + 719468 in
  let era := z / 146097 in
  let doe := z - era * 146097 in
  let yoe := (doe - doe / 1460 + doe / 36524 - doe / 146096) / 365 in
  let doy := doe - (365 * yoe + yoe / 4 - yoe / 100) in
  let mp := (5 * doy + 2) / 153 in
  let d := doy - (153 * mp + 2) / 5 + 1 in
  let m := if mp <? 10 then mp + 3 else mp - 9 in
  (if m <=? 2 then yoe + era * 400 + 1 else yoe + era * 400, m, d).

(** [t.Date()]: the calendar day of [t] in its own zone. *)
Definition DateOf (t : Time) : Z * Z * Z :=
  civil ((unix t + offset t) / 86400).

(** [time.Date(year, month, day, 0, 0, 0, 0, time.UTC)]. *)
Definition Date (year month day : Z) : Time :=
  mkTime (daysFromCivil year month day * 86400) 0 0.

(** *** Layouts

    The elements of a layout.  Only the elements that occur in the two
    layouts of the program, ["02-Jan-06"] and ["1/2/2006"], are recognised;
    any other character of a layout stands for itself. *)
Inductive std : Type :=
| stdLit (c : ascii)
| stdMonth
| stdNumMonth
| stdZeroDay
| stdDay
| stdYear
| stdLongYear.

Fixpoint chunks (layout : string) : list std :=
  match layout with
  | "" => []
  | String "J" (String "a" (String "n" r)) => stdMonth :: chunks r
  | String "0" (String "2" r) => stdZeroDay :: chunks r
  | String "0" (String "6" r) => stdYear :: chunks r
  | String "2" (String "0" (String "0" (String "6" r))) =>
      stdLongYear :: chunks r
  | String "2" r => stdDay :: chunks r
  | String "1" r => stdNumMonth :: chunks r
  | String c r => stdLit c :: chunks r
  end.

Definition decimal (n : Z) : string :=
  NilZero.string_of_uint (N.to_uint (Z.to_N n)).

Fixpoint zeros (k : nat) : string :=
  match k with
  | O => ""
  | S k' => String "0" (zeros k')
  end.

(** [appendInt]: decimal digits, padded with zeros to [width]. *)
Definition appendInt (x : Z) (width : nat) : string :=
  let digits := decimal (Z.abs x) in
  (if x <? 0 then "-" else "")
  ++ zeros (width - String.length digits) ++ digits.

Definition shortMonthNames : list string :=
  ["Jan"; "Feb"; "Mar"; "Apr"; "May"; "Jun";
   "Jul"; "Aug"; "Sep"; "Oct"; "Nov"; "Dec"].

Definition formatStd (year month day : Z) (s : std) : string :=
  match s with
  | stdLit c => String c ""
  | stdMonth => nth (Z.to_nat (month - 1)) shortMonthNames ""
  | stdNumMonth => appendInt month 0
  | stdZeroDay => appendInt day 2
  | stdDay => appendInt day 0
  | stdYear => appendInt (Z.rem (Z.abs year) 100) 2
  | stdLongYear => appendInt year 4
  end.

(** [t.Format(layout)]. *)
Definition Format (t : Time) (layout : string) : string :=
  let '(year, month, day) := DateOf t in
  String.concat "" (map (formatStd year month day) (chunks layout)).

(** *** Parsing *)

Definition isDigit (c : ascii) : bool :=
  let n := nat_of_ascii c in (48 <=? n)%nat && (n <=? 57)%nat.

Definition digitVal (c : ascii) : Z := Z.of_nat (nat_of_ascii c) - 48.

(** [getnum]: one or two digits, exactly two when [fixed]. *)
Definition getnum (s : string) (fixed : bool) : option (Z * string) :=
  match s with
  | String a r =>
      if isDigit a then
        match r with
        | String b r' =>
            if isDigit b then Some (digitVal a * 10 + digitVal b, r')
            else if fixed then None else Some (digitVal a, r)
        | "" => if fixed then None else Some (digitVal a, r)
        end
      else None
  | "" => None
  end.

(** The four digits of a long year. *)
Definition getyear (s : string) : option (Z * string) :=
  match s with
  | String a (String b (String c (String d r))) =>
      if isDigit a && isDigit b && isDigit c && isDigit d then
        Some (((digitVal a * 10 + digitVal b) * 10 + digitVal c) * 10
              + digitVal d, r)
      else None
  | _ => None
  end.

(** The parser's state: what is left of the value, and the year, month and
    day read so far. *)
Fixpoint parseStd (l : list std) (value : string) (year month day : Z)
    : string + (Z * Z * Z) :=
  match l with
  | [] =>
      if String.eqb value "" then
        if (day <? 1) || (daysIn month year <? day)
        then inl ": day out of range"
        else inr (year, month, day)
      else inl (": extra text: " ++ value)
  | stdLit c :: l' =>
      match value with
      | String c' value' =>
          if Ascii.eqb c c' then parseStd l' value' year month day
          else inl ""
      | "" => inl ""
      end
  | stdNumMonth :: l' =>
      match getnum value false with
      | Some (m, value') =>
          if (m <=? 0) || (12 <? m) then inl ": month out of range"
          else parseStd l' value' year m day
      | None => inl ""
      end
  | stdDay :: l' =>
      match getnum value false with
      | Some (d, value') => parseStd l' value' year month d
      | None => inl ""
      end
  | stdZeroDay :: l' =>
      match getnum value true with
      | Some (d, value') => parseStd l' value' year month d
      | None => inl ""
      end
  | stdYear :: l' =>
      match getnum value true with
      | Some (y, value') =>
          parseStd l' value' (if 69 <=? y then y + 1900 else y + 2000) month day
      | None => inl ""
      end
  | stdLongYear :: l' =>
      match getyear value with
      | Some (y, value') => parseStd l' value' y month day
      | None => inl ""
      end
  | stdMonth :: l' => inl ""
  end.

(** [time.Parse(layout, value)] for a layout of numeric elements: the value
    must match the layout element by element and name a day that exists; the
    result is midnight UTC of that day.  (A month name in the layout is not
    parsed here: the program parses with ["1/2/2006"] only.) *)
Definition Parse (layout value : string) : result Time :=
  match parseStd (chunks layout) value 0 1 1 with
  | inr (y, m, d) => Ok (Date y m d)
  | inl problem => Err (ParseError layout value problem)
  end.

End time.
Abbreviation Time := time.Time.

(** ** Package [math] *)
Module math.

Definition Abs (x : float) : float := abs x.

(** [math.Pow]: the special cases that Go documents for a zero exponent, a
    base of one, an exponent of one, a NaN operand and an infinite exponent
    are written out, in Go's order; every other pair of operands is left
    to [rest]. *)
Definition Pow (rest : float -> float -> float) (x y : float) : float :=
  if (y =? 0)%float || (x =? 1)%float then 1%float
  else if (y =? 1)%float then x
  else if is_nan x || is_nan y then nan
  else if is_infinity y then
    if (x =? 0)%float then
      if (y <? 0)%float then infinity else 0%float
    else if (x =? -1)%float then 1%float
    else if Bool.eqb (Abs x <? 1)%float (y =? infinity)%float then 0%float
    else infinity
  else rest x y.

End math.

(** ** Package [strings] *)
Module strings.

(** [strings.Split(s, sep)] for a separator of one byte. *)
Fixpoint Split (s : string) (sep : ascii) : list string :=
  match s with
  | "" => [""]
  | String c s' =>
      if Ascii.eqb c sep then "" :: Split s' sep
      else match Split s' sep with
           | f :: fs => String c f :: fs
           | [] => [String c ""]
           end
  end.

End strings.

(** ** Package [strconv] *)
Module strconv.

Definition digitChar (n : Z) : ascii := ascii_of_nat (48 + Z.to_nat n).

(** [n / d] rounded to the nearest integer, a tie to the even one. *)
Definition roundHalfEven (n d : Z) : Z :=
  let q := n / d in
  let r := n mod d in
  match 2 * r ?= d with
  | Lt => q
  | Gt => q + 1
  | Eq => if Z.even q then q else q + 1
  end.

(** [m * 2^e * 10^prec], rounded to an integer. *)
Definition scaled (m : positive) (e : Z) (prec : nat) : Z :=
  let p := 10 ^ Z.of_nat prec in
  if 0 <=? e then Z.pos m * 2 ^ e * p
  else roundHalfEven (Z.pos m * p) (2 ^ (- e)).

(** The [k] low decimal digits of [n]. *)
Fixpoint lowDigits (k : nat) (n : Z) : string :=
  match k with
  | O => ""
  | S k' => lowDigits k' (n / 10) ++ String (digitChar (n mod 10)) ""
  end.

Definition fixed (neg : bool) (n : Z) (prec : nat) : string :=
  (if neg then "-" else "")
  ++ time.decimal (n / 10 ^ Z.of_nat prec)
  ++ match prec with
     | O => ""
     | S _ => "." ++ lowDigits prec n
     end.

(** [strconv.FormatFloat(f, 'f', prec, 64)]: the exact value of [f] rounded
    to [prec] decimals, half to even. *)
Definition FormatFloat (f : float) (prec : nat) : string :=
  match Prim2SF f with
  | S754_nan => "NaN"
  | S754_infinity s => if s then "-Inf" else "+Inf"
  | S754_zero s => fixed s 0 prec
  | S754_finite s m e => fixed s (scaled m e prec) prec
  end.

End strconv.

(** ** Package [fmt] *)
Module fmt.

(** The two kinds of operands the program prints. *)
Inductive arg : Type :=
| Str (s : string)
| Float (f : float).

(** Where the scan of a format stands: in plain text, or after a [%] with
    the precision read so far. *)
Inductive state : Type :=
| Text
| Verb (prec : option nat).

(** One verb applied to one operand: [%s] of a string, [%f] of a float with
    the default precision 6 or the stated one.  An operand that does not fit
    its verb does not occur in the program; it is rendered as a marker that
    is not Go's text. *)
Definition printArg (verb : ascii) (prec : option nat) (a : arg) : string :=
  match a with
  | Str s =>
      if Ascii.eqb verb "s" then
        match prec with
        | None => s
        | Some _ => "%!s(?)"
        end
      else "%!" ++ String verb "(?)"
  | Float f =>
      if Ascii.eqb verb "f" then strconv.FormatFloat f (default 6%nat prec)
      else "%!" ++ String verb "(?)"
  end.

(** [fmt.Sprintf(format, a...)] for formats made of text, [%%], [%s], [%f]
    and [%.Nf].  Flags and widths are not modelled, nor is the note that Go
    appends for operands left over. *)
Fixpoint doPrintf (st : state) (format : string) (a : list arg) : string :=
  match format with
  | "" =>
      match st with
      | Text => ""
      | Verb _ => "%!(NOVERB)"
      end
  | String c rest =>
      match st with
      | Text =>
          if Ascii.eqb c "%" then doPrintf (Verb None) rest a
          else String c (doPrintf Text rest a)
      | Verb prec =>
          if Ascii.eqb c "%" then String "%" (doPrintf Text rest a)
          else if Ascii.eqb c "." then doPrintf (Verb (Some 0%nat)) rest a
          else
            match prec with
            | Some n =>
                if time.isDigit c
                then doPrintf
                       (Verb (Some (10 * n + Z.to_nat (time.digitVal c))%nat))
                       rest a
                else
                  match a with
                  | [] => "%!" ++ String c "(MISSING)" ++ doPrintf Text rest []
                  | x :: a' => printArg c prec x ++ doPrintf Text rest a'
                  end
            | None =>
                match a with
                | [] => "%!" ++ String c "(MISSING)" ++ doPrintf Text rest []
                | x :: a' => printArg c prec x ++ doPrintf Text rest a'
                end
            end
      end
  end.

Definition Sprintf (format : string) (a : list arg) : string :=
  doPrintf Text format a.

(** A Go string literal: the escape [\n] is the line feed. *)
Fixpoint lit (s : string) : string :=
  match s with
  | String "\" (String "n" r) => String "010" (lit r)
  | String c r => String c (lit r)
  | "" => ""
  end.

End fmt.

(** ** The data model of [main.go] *)

Module Investment.
Record investment : Type := mk {
  Symbol : string;
  Date : Time;
  Total : float;
  Units : float
}.
End Investment.
Abbreviation investment := Investment.investment.

Module Performance.
Record performance : Type := mk {
  Symbol : string;
  Price : float;
  CompoundInterest : float;
  Date : Time
}.
End Performance.
Abbreviation performance := Performance.performance.

(** A Go slice is [nil] or holds a sequence; a Go map is [nil] or holds a
    finite map.  [None] is [nil]. *)
Module Config.
Record config : Type := mk {
  Investments : option (list investment);
  History : option (gmap string (option (list performance)))
}.
End Config.
Abbreviation config := Config.config.

(** ** [currentRate] *)

(** [365.25 * 24 * 60 * 60], an untyped constant that Go evaluates exactly
    before it becomes a [float64]. *)
Definition secondsPerYear : float := float64 (36525 * 24 * 60 * 60 / 100).

Section CurrentRate.

(** The general case of [math.Pow]. *)
Variable pow_rest : float -> float -> float.

(** [now] is the value [time.Now()] returns inside the call. *)
Definition currentRate (now : Time) (i : investment) (price : float) : float :=
  let principal := (Investment.Total i / Investment.Units i)%float in
  let d := (time.Seconds (time.Sub now (Investment.Date i)) / secondsPerYear)%float in
  let r := (100 * (math.Pow pow_rest (price / principal) (1 / d) - 1))%float in
  r.

End CurrentRate.

(** ** Slices and maps *)

(** The elements of a slice; a [nil] slice has none. *)
Definition elems {A : Type} (s : option (list A)) : list A :=
  match s with
  | Some l => l
  | None => []
  end.

(** [append(s, x)]: never [nil]. *)
Definition append {A : Type} (s : option (list A)) (x : A) : option (list A) :=
  Some (elems s ++ [x])%list.

(** [m[k]] read from a map of slices: [nil] when the map is [nil] or has no
    entry for [k]. *)
Definition index (m : option (gmap string (option (list performance))))
    (k : string) : option (list performance) :=
  match m with
  | None => None
  | Some m => default None (m !! k)
  end.

(** ** The world outside the program *)

(** What a file holds: the JSON encoding of a [config], or bytes on which
    [Decode] stops with an error after filling in [partial]. *)
Inductive fileData : Type :=
| JSONDoc (c : config)
| Undecodable (partial : config) (e : error).

Definition io_EOF : error := errors_New "EOF".

(** A file of length zero. *)
Definition emptyFile : fileData := Undecodable (Config.mk None None) io_EOF.

Module mailgun.
Record Message : Type := NewMessage {
  From : string;
  Subject : string;
  Body : string;
  To : list string
}.
End mailgun.

(** The file system with its faults, the wall clock, the quote provider
    and the mail service are oracles: [clock] and [market] are read at the
    index of the next call, counted by [ticks] and [fetches]. *)
Record World : Type := mkWorld {
  files : gmap string fileData;
  openFault : string -> option error;
  createFault : string -> option error;
  writeFault : string -> option (fileData * error);
  clock : nat -> Time;
  ticks : nat;
  market : nat -> string -> result (result float);
  fetches : nat;
  mailer : mailgun.Message -> string * option error;
  outbox : list mailgun.Message;
  stdout : string;
  stderr : list error
}.

Definition setFiles (f : gmap string fileData) (w : World) : World :=
  mkWorld f (openFault w) (createFault w) (writeFault w) (clock w) (ticks w)
    (market w) (fetches w) (mailer w) (outbox w) (stdout w) (stderr w).

(** The counters moved on by [t] clock readings and [f] quote requests. *)
Definition advance (t f : nat) (w : World) : World :=
  mkWorld (files w) (openFault w) (createFault w) (writeFault w) (clock w)
    (ticks w + t) (market w) (fetches w + f) (mailer w) (outbox w)
    (stdout w) (stderr w).

Definition setOutbox (o : list mailgun.Message) (w : World) : World :=
  mkWorld (files w) (openFault w) (createFault w) (writeFault w) (clock w)
    (ticks w) (market w) (fetches w) (mailer w) o (stdout w) (stderr w).

Definition setStdout (s : string) (w : World) : World :=
  mkWorld (files w) (openFault w) (createFault w) (writeFault w) (clock w)
    (ticks w) (market w) (fetches w) (mailer w) (outbox w) s (stderr w).

Definition setStderr (e : list error) (w : World) : World :=
  mkWorld (files w) (openFault w) (createFault w) (writeFault w) (clock w)
    (ticks w) (market w) (fetches w) (mailer w) (outbox w) (stdout w) e.

(** A computation that reads and changes the world. *)
Definition IO (A : Type) : Type := World -> A * World.

Definition ret {A : Type} (a : A) : IO A := fun w => (a, w).

Definition bind {A B : Type} (c : IO A) (k : A -> IO B) : IO B :=
  fun w => let '(a, w') := c w in k a w'.

Notation "'do' x <- c ; k" := (bind c (fun x => k))
  (at level 10, x name, c at level 100, k at level 200).
Notation "'do' ' p <- c ; k" := (bind c (fun x => let 'p := x in k))
  (at level 10, p pattern, c at level 100, k at level 200).

(** [time.Now()]. *)
Definition time_Now : IO Time :=
  fun w => (clock w (ticks w), advance 1 0 w).

(** ** Package [os] *)
Module os.

Definition ENOENT : string := "no such file or directory".

(** [os.Open(name)]. *)
Definition Open (name : string) : IO (result fileData) :=
  fun w =>
    match openFault w name with
    | Some e => (Err e, w)
    | None =>
        match files w !! name with
        | Some d => (Ok d, w)
        | None => (Err (PathError "open" name ENOENT), w)
        end
    end.

Definition IsNotExist (e : error) : bool :=
  match e with
  | PathError _ _ cause => String.eqb cause ENOENT
  | _ => false
  end.

(** [os.OpenFile(name, O_WRONLY|O_CREATE|O_TRUNC, 0777)]: the file exists
    and is empty as soon as the call succeeds. *)
Definition OpenFile (name : string) : IO (option error) :=
  fun w =>
    match createFault w name with
    | Some e => (Some e, w)
    | None => (None, setFiles (<[name := emptyFile]> (files w)) w)
    end.

End os.

(** ** Package [encoding/json] *)
Module json.

(** [Decode]: the value read, and the error if the bytes are not one. *)
Definition Decode (d : fileData) (c : config) : config * option error :=
  match d with
  | JSONDoc c' => (c', None)
  | Undecodable partial e => (partial, Some e)
  end.

Definition finite (f : float) : bool := negb (nonfinite f).

Definition yearInRange (t : Time) : bool :=
  let '(y, _, _) := time.DateOf t in (0 <=? y) && (y <=? 9999).

Definition investmentOK (i : investment) : bool :=
  finite (Investment.Total i) && finite (Investment.Units i)
  && yearInRange (Investment.Date i).

Definition performanceOK (p : performance) : bool :=
  finite (Performance.Price p) && finite (Performance.CompoundInterest p)
  && yearInRange (Performance.Date p).

(** The values [Marshal] accepts: every float finite (NaN and the
    infinities are an [UnsupportedValueError]) and every date in a year from
    0 to 9999. *)
Definition encodable (c : config) : Prop :=
  Forall (fun i => investmentOK i = true) (elems (Config.Investments c))
  /\ match Config.History c with
     | None => True
     | Some m =>
         map_Forall (fun _ h => Forall (fun p => performanceOK p = true) (elems h)) m
     end.

#[global] Instance encodable_dec (c : config) : Decision (encodable c).
Proof.
  unfold encodable. destruct (Config.History c); apply _.
Defined.

(** [NewEncoder(f).Encode(conf)]: the value is encoded in memory first and
    written only if that succeeds.  (Which of several offending values the
    error names is not modelled.) *)
Definition Encode (name : string) (conf : config) : IO (option error) :=
  fun w =>
    if decide (encodable conf) then
      match writeFault w name with
      | Some (rest, e) => (Some e, setFiles (<[name := rest]> (files w)) w)
      | None => (None, setFiles (<[name := JSONDoc conf]> (files w)) w)
      end
    else (Some (UnsupportedValueError "float64"), w).

End json.

(** ** The functions both revisions share *)

(** [config{}] and [investment{}]. *)
Definition config0 : config := Config.mk None None.
Definition Time0 : Time := time.Date 1 1 1.
Definition investment0 : investment := Investment.mk "" Time0 0 0.

Definition parseConfig (file : string) : IO (config * option error) :=
  do f <- os.Open file ;
  match f with
  | Err err =>
      if os.IsNotExist err then ret (config0, None)
      else ret (config0, Some err)
  | Ok f =>
      let c := config0 in
      ret (json.Decode f c)
  end.

Definition writeConfig (file : string) (conf : config) : IO (option error) :=
  do err <- os.OpenFile file ;
  match err with
  | Some err => ret (Some err)
  | None => json.Encode file conf
  end.

Definition mmddyy : string := "1/2/2006".

Section ParseFloat.

(** [strconv.ParseFloat(s, 64)]: the number read, and the error. *)
Variable ParseFloat : string -> float * option error.

Definition parseInvestmentLine (iStr : string) : investment * option error :=
  let arr := strings.Split iStr "," in
  if negb (Nat.eqb (length arr) 4) then
    (investment0, Some (errors_New "investment line format incorrect"))
  else
    match time.Parse mmddyy (nth 1 arr "") with
    | Err err => (investment0, Some err)
    | Ok t =>
        let '(total, err) := ParseFloat (nth 2 arr "") in
        match err with
        | Some err => (investment0, Some err)
        | None =>
            let '(units, err) := ParseFloat (nth 3 arr "") in
            (Investment.mk (nth 0 arr "") t total units, err)
        end
    end.

Definition addInvestment (iStr confFile : string) : IO (option error) :=
  do ' (conf, err) <- parseConfig confFile ;
  match err with
  | Some err => ret (Some err)
  | None =>
      let '(i, err) := parseInvestmentLine iStr in
      match err with
      | Some err => ret (Some err)
      | None =>
          let conf :=
            Config.mk (append (Config.Investments conf) i) (Config.History conf) in
          writeConfig confFile conf
      end
  end.

End ParseFloat.

Definition perr (err : option error) : IO unit :=
  fun w =>
    match err with
    | Some err => (tt, setStderr (stderr w ++ [err])%list w)
    | None => (tt, w)
    end.

Definition humanDate : string := "02-Jan-06".

(** [hPerf := history[symbol]; hPerf = append(hPerf, perf);
    history[symbol] = hPerf], the three statements that close the loop body
    of [analysis]. *)
Definition appendPerformance
    (history : gmap string (option (list performance)))
    (symbol : string) (perf : performance)
    : gmap string (option (list performance)) :=
  let hPerf := index (Some history) symbol in
  let hPerf := append hPerf perf in
  <[symbol := hPerf]> history.

(** [fmt.Fprintf(writer, format, a...)] on a writer that holds [writer]. *)
Definition Fprintf (writer format : string) (a : list fmt.arg) : string :=
  writer ++ fmt.Sprintf (fmt.lit format) a.

(** ** The first revision (first listing of [main.go]) *)
Module Rev1.

(** Package [stocks]: [GetQuote] asks the provider, [GetPrice] reads the
    price out of the answer; either can fail. *)
Module stocks.

Record Stock : Type := mkStock { GetPrice : result float }.

Definition GetQuote (symbol : string) : IO (result Stock) :=
  fun w =>
    (match market w (fetches w) symbol with
     | Ok p => Ok (mkStock p)
     | Err e => Err e
     end, advance 0 1 w).

End stocks.

Section Analysis.

Variable pow_rest : float -> float -> float.

(** The body of [for _, i := range conf.Investments]; the result is the
    map as the loop leaves it and the error it returns with, if any. *)
Fixpoint analysisLoop (investments : list investment)
    (history : gmap string (option (list performance)))
    : IO (gmap string (option (list performance)) * option error) :=
  match investments with
  | [] => ret (history, None)
  | i :: rest =>
      do stock <- stocks.GetQuote (Investment.Symbol i) ;
      match stock with
      | Err err => ret (history, Some err)
      | Ok stock =>
          match stocks.GetPrice stock with
          | Err err => ret (history, Some err)
          | Ok p =>
              do now <- time_Now ;
              let r := currentRate pow_rest now i p in
              do now' <- time_Now ;
              let perf :=
                Performance.mk (Investment.Symbol i) p r now' in
              analysisLoop rest
                (appendPerformance history (Investment.Symbol i) perf)
          end
      end
  end.

Fixpoint printHistory (history : list performance) (i : nat)
    (writer : string) : string :=
  match i with
  | O => writer
  | S i' =>
      match history !! i' with
      | None => writer
      | Some h =>
          printHistory history i'
            (Fprintf writer "%s %.2f\n"
               [fmt.Str (time.Format (Performance.Date h) humanDate);
                fmt.Float (Performance.CompoundInterest h)])
      end
  end.

Fixpoint printBlocks (investments : list investment) (conf : config)
    (writer : string) : string :=
  match investments with
  | [] => writer
  | v :: rest =>
      let history := index (Config.History conf) (Investment.Symbol v) in
      let writer :=
        Fprintf writer "%s %f %s\n"
          [fmt.Str (Investment.Symbol v); fmt.Float (Investment.Total v);
           fmt.Str (time.Format (Investment.Date v) humanDate)] in
      match history with
      | None => printBlocks rest conf writer
      | Some history =>
          printBlocks rest conf (printHistory history (length history) writer)
      end
  end.

(** [printAnalysis(conf)]; [writer] is what standard output holds. *)
Definition printAnalysis (writer : string) (conf : config) : string :=
  printBlocks (elems (Config.Investments conf)) conf writer.

Definition analysis (confFile : string) : IO (option error) :=
  do ' (conf, err) <- parseConfig confFile ;
  match err with
  | Some err => ret (Some err)
  | None =>
      let history := default ∅ (Config.History conf) in
      do ' (history, err) <-
        analysisLoop (elems (Config.Investments conf)) history ;
      match err with
      | Some err => ret (Some err)
      | None =>
          let conf := Config.mk (Config.Investments conf) (Some history) in
          do err <- writeConfig confFile conf ;
          match err with
          | Some err => ret (Some err)
          | None =>
              fun w =>
                (None, setStdout (printAnalysis (stdout w) conf) w)
          end
      end
  end.

Variable ParseFloat : string -> float * option error.

(** [main], given the values of the flags [-add] and [-config]. *)
Definition main (add config : string) : IO unit :=
  if negb (String.eqb add "") then
    do err <- addInvestment ParseFloat add config ;
    perr err
  else
    do err <- analysis config ;
    perr err.

End Analysis.

End Rev1.

(** ** The second revision (second listing of [main.go]) *)
Module Rev2.

Module yquotes.

Record Price : Type := mkPrice { Last : float }.

Definition GetPrice (symbol : string) : IO (result Price) :=
  fun w =>
    (match market w (fetches w) symbol with
     | Ok (Ok p) => Ok (mkPrice p)
     | Ok (Err e) => Err e
     | Err e => Err e
     end, advance 0 1 w).

End yquotes.

Definition publicAPIKey : string := "".
Definition apiKey : string := "".

(** [fmt.Println(a, b, ...)] of strings. *)
Definition Println (a : list string) : IO unit :=
  fun w => (tt, setStdout (stdout w ++ String.concat " " a ++ fmt.lit "\n") w).

(** [mg.Send(m)]: the message goes to the service, which answers with a
    text and possibly an error. *)
Definition mailgun_Send (m : mailgun.Message) : IO (string * option error) :=
  fun w => (mailer w m, setOutbox (outbox w ++ [m])%list w).

Definition sendEmail (body : string) : IO (option error) :=
  do now <- time_Now ;
  do ' (resp, err) <-
    mailgun_Send
      (mailgun.NewMessage
         "investment@sheki.in"
         (fmt.Sprintf "Investment Report - %s"
            [fmt.Str (time.Format now humanDate)])
         body
         ["abhishek.kona@gmail.com"; "abhishek.kona@sheki.in"]) ;
  do _ <- Println [resp] ;
  ret err.

Fixpoint printHistory (history : list performance) (i : nat)
    (seen : gset string) (writer : string) : string :=
  match i with
  | O => writer
  | S i' =>
      match history !! i' with
      | None => writer
      | Some h =>
          let dateStr := time.Format (Performance.Date h) humanDate in
          if decide (dateStr ∈ seen) then printHistory history i' seen writer
          else
            printHistory history i' ({[dateStr]} ∪ seen)
              (Fprintf writer "%s %.2f %%\n"
                 [fmt.Str dateStr; fmt.Float (Performance.CompoundInterest h)])
      end
  end.

Fixpoint printBlocks (investments : list investment) (conf : config)
    (writer : string) : string :=
  match investments with
  | [] => writer
  | v :: rest =>
      let history := index (Config.History conf) (Investment.Symbol v) in
      let writer :=
        Fprintf writer "===%s %.2f %s ===\n"
          [fmt.Str (Investment.Symbol v); fmt.Float (Investment.Total v);
           fmt.Str (time.Format (Investment.Date v) humanDate)] in
      match history with
      | None => printBlocks rest conf writer
      | Some history =>
          let writer := printHistory history (length history) ∅ writer in
          printBlocks rest conf (Fprintf writer "\n" [])
      end
  end.

(** [printAnalysis(writer, conf)]; the result is what the writer holds
    afterwards. *)
Definition printAnalysis (writer : string) (conf : config) : string :=
  printBlocks (elems (Config.Investments conf)) conf writer.

Section Analysis.

Variable pow_rest : float -> float -> float.

Fixpoint analysisLoop (investments : list investment)
    (history : gmap string (option (list performance)))
    : IO (gmap string (option (list performance)) * option error) :=
  match investments with
  | [] => ret (history, None)
  | i :: rest =>
      do price <- yquotes.GetPrice (Investment.Symbol i) ;
      match price with
      | Err err => ret (history, Some err)
      | Ok price =>
          do now <- time_Now ;
          let r := currentRate pow_rest now i (yquotes.Last price) in
          do now' <- time_Now ;
          let perf :=
            Performance.mk (Investment.Symbol i) (yquotes.Last price) r now' in
          analysisLoop rest
            (appendPerformance history (Investment.Symbol i) perf)
      end
  end.

Definition analysis (confFile : string) : IO (option error) :=
  do ' (conf, err) <- parseConfig confFile ;
  match err with
  | Some err => ret (Some err)
  | None =>
      let history := default ∅ (Config.History conf) in
      do ' (history, err) <-
        analysisLoop (elems (Config.Investments conf)) history ;
      match err with
      | Some err => ret (Some err)
      | None =>
          let conf := Config.mk (Config.Investments conf) (Some history) in
          do err <- writeConfig confFile conf ;
          match err with
          | Some err => ret (Some err)
          | None =>
              do _ <- (fun w =>
                         (tt, setStdout (printAnalysis (stdout w) conf) w)) ;
              let bu := printAnalysis "" conf in
              sendEmail bu
          end
      end
  end.

Variable ParseFloat : string -> float * option error.

(** [main], given the values of the flags [-add] and [-config]. *)
Definition main (add config : string) : IO unit :=
  if negb (String.eqb add "") then
    do _ <- Println ["adding"; add] ;
    do err <- addInvestment ParseFloat add config ;
    perr err
  else
    do err <- analysis config ;
    perr err.

End Analysis.

End Rev2.

(** ** Inputs on which the statements below are run *)
Module Example.

Fixpoint digits (s : string) (acc : Z) : option Z :=
  match s with
  | "" => Some acc
  | String c r =>
      if time.isDigit c then digits r (10 * acc + time.digitVal c) else None
  end.

(** What [strconv.ParseFloat(s, 64)] returns on the word [NaN] and on a
    decimal integer below [2^53], with or without a minus sign; every other
    text is refused here, which is not what Go does. *)
Definition ParseFloat (s : string) : float * option error :=
  let bad := (0%float, Some (NumError "ParseFloat" s)) in
  if String.eqb s "NaN" then (nan, None)
  else
    match s with
    | "" => bad
    | String "-" r =>
        match r, digits r 0 with
        | String _ _, Some n =>
            if n <? 2 ^ 53 then ((- float64 n)%float, None) else bad
        | _, _ => bad
        end
    | _ =>
        match digits s 0 with
        | Some n => if n <? 2 ^ 53 then (float64 n, None) else bad
        | None => bad
        end
    end.

Definition pow_rest (x y : float) : float := nan.

Definition epoch : Time := time.mkTime 0 0 0.

(** 2 January 2006, 3 January 2006 (twice) and 2 January 2106. *)
Definition jan2 : Time := time.mkTime 1136160000 0 0.
Definition jan3 : Time := time.mkTime 1136246400 0 0.
Definition jan3_noon : Time := time.mkTime 1136289600 0 0.
Definition jan2_2106 : Time := time.mkTime 4291833600 0 0.

(** A world with no file, no fault, a clock that stands at [jan3], a
    provider that quotes 11 for every symbol and a mail service that
    accepts every message. *)
Definition quiet : World :=
  mkWorld ∅ (fun _ => None) (fun _ => None) (fun _ => None)
    (fun _ => jan3) 0 (fun _ _ => Ok (Ok 11%float)) 0
    (fun _ => ("Queued", None)) [] "" [].

Definition goog : investment := Investment.mk "GOOG" jan2 100 10.
Definition aapl : investment := Investment.mk "AAPL" jan2 50 5.

Definition perf (symbol : string) (ci : float) (date : Time) : performance :=
  Performance.mk symbol 11 ci date.

End Example.

(** ** The report, as the specification words it *)

(** The text of a list of pieces, one after the other. *)
Definition joined (pieces : list string) : string :=
  fold_right String.append "" pieces.

Definition LF : string := fmt.lit "\n".

(** The deduplicated view: walk the sequence from the newest record to the
    oldest and keep a record only the first time its formatted day is
    seen. *)
Module View.

Definition day (h : performance) : string :=
  time.Format (Performance.Date h) humanDate.

Fixpoint firstSeen (seen : gset string) (walk : list performance)
    : list performance :=
  match walk with
  | [] => []
  | h :: rest =>
      if decide (day h ∈ seen) then firstSeen seen rest
      else h :: firstSeen ({[day h]} ∪ seen) rest
  end.

Definition dedup (history : list performance) : list performance :=
  firstSeen ∅ (rev history).

End View.

(** The blocks of the second revision's report. *)
Module Report.

Definition header (v : investment) : string :=
  "===" ++ Investment.Symbol v ++ " "
  ++ strconv.FormatFloat (Investment.Total v) 2 ++ " "
  ++ time.Format (Investment.Date v) humanDate ++ " ===" ++ LF.

Definition line (h : performance) : string :=
  View.day h ++ " "
  ++ strconv.FormatFloat (Performance.CompoundInterest h) 2 ++ " %" ++ LF.

(** A block: the header, then, if the symbol has a history, one line per
    record of the deduplicated view and an empty line. *)
Definition block (conf : config) (v : investment) : string :=
  header v
  ++ match index (Config.History conf) (Investment.Symbol v) with
     | None => ""
     | Some history => joined (map line (View.dedup history)) ++ LF
     end.

(** The history line and the report that claim C5 words: the percent sign
    right after the number, and an empty line between two blocks. *)
Definition claimedLine (h : performance) : string :=
  View.day h ++ " "
  ++ strconv.FormatFloat (Performance.CompoundInterest h) 2 ++ "%" ++ LF.

Definition claimedBlock (conf : config) (v : investment) : string :=
  header v
  ++ joined (map claimedLine
               (View.dedup (elems (index (Config.History conf)
                                     (Investment.Symbol v))))).

Definition claimedReport (conf : config) : string :=
  String.concat LF (map (claimedBlock conf) (elems (Config.Investments conf))).

End Report.

(** The blocks of the first revision's report. *)
Module Report1.

Definition header (v : investment) : string :=
  Investment.Symbol v ++ " "
  ++ strconv.FormatFloat (Investment.Total v) 6 ++ " "
  ++ time.Format (Investment.Date v) humanDate ++ LF.

Definition line (h : performance) : string :=
  View.day h ++ " "
  ++ strconv.FormatFloat (Performance.CompoundInterest h) 2 ++ LF.

Definition block (conf : config) (v : investment) : string :=
  header v
  ++ joined (map line (rev (elems (index (Config.History conf)
                                     (Investment.Symbol v))))).

End Report1.

(** The configuration of the examples: [GOOG] has no history, [AAPL] has
    two records of 3 January 2006 and one of the day before. *)
Definition Example_conf : config :=
  Config.mk (Some [Example.goog; Example.aapl])
    (Some {[ "AAPL" := Some [Example.perf "AAPL" 1 Example.jan2;
                             Example.perf "AAPL" 2 Example.jan3;
                             Example.perf "AAPL" 3 Example.jan3_noon] ]}).

(** ** Quote requests *)

(** The error a quote request ends with, if any: the request can fail, and
    so can the reading of the price out of its answer. *)
Definition quoteError (answer : result (result float)) : option error :=
  match answer with
  | Err e => Some e
  | Ok (Err e) => Some e
  | Ok (Ok _) => None
  end.

(** Every request for [investments], the first of which is request number
    [k], is answered with a price. *)
Fixpoint quoted (market : nat -> string -> result (result float)) (k : nat)
    (investments : list investment) : Prop :=
  match investments with
  | [] => True
  | i :: rest =>
      quoteError (market k (Investment.Symbol i)) = None
      /\ quoted market (S k) rest
  end.

(** The price in an answer that holds one. *)
Definition priceOf (answer : result (result float)) : float :=
  match answer with
  | Ok (Ok p) => p
  | _ => 0%float
  end.

(** The record a turn of the loop of [analysis] builds for [i] in the world
    [w], when the quote arrives: the price of the next answer, the rate at
    the next clock reading, and the clock reading after that one. *)
Definition observed (rest : float -> float -> float) (w : World)
    (i : investment) : performance :=
  let p := priceOf (market w (fetches w) (Investment.Symbol i)) in
  Performance.mk (Investment.Symbol i) p
    (currentRate rest (clock w (ticks w)) i p)
    (clock w (ticks w + 1)%nat).

(** The history map a run of the loop of [analysis] leaves when every
    quote arrives: each investment in turn adds its record, read in a world
    two clock readings and one request further on. *)
Fixpoint recorded (rest : float -> float -> float) (w : World)
    (investments : list investment)
    (history : gmap string (option (list performance)))
    : gmap string (option (list performance)) :=
  match investments with
  | [] => history
  | i :: investments' =>
      recorded rest (advance 2 1 w) investments'
        (appendPerformance history (Investment.Symbol i) (observed rest w i))
  end.

(** The configuration a run that goes through stores. *)
Definition updated (rest : float -> float -> float) (w : World)
    (conf : config) : config :=
  Config.mk (Config.Investments conf)
    (Some (recorded rest w (elems (Config.Investments conf))
             (default ∅ (Config.History conf)))).

(** The message [sendEmail] hands to the mail service at the instant
    [now]. *)
Definition report (now : Time) (body : string) : mailgun.Message :=
  mailgun.NewMessage "investment@sheki.in"
    ("Investment Report - " ++ time.Format now humanDate) body
    ["abhishek.kona@gmail.com"; "abhishek.kona@sheki.in"].


(** [w'] differs from [w] at most by the file [confFile], by text added to
    standard output and by messages added to those sent. *)
Definition extends (confFile : string) (w w' : World) : Prop :=
  stderr w' = stderr w
  /\ (forall file, file <> confFile -> files w' !! file = files w !! file)
  /\ (exists text, stdout w' = stdout w ++ text)
  /\ (exists sent, outbox w' = (outbox w ++ sent)%list).

(** ** Worlds on which the statements below are run *)
Module Scenario.

Definition confFile : string := "config.json".

Definition stored : config :=
  Config.mk (Some [Example.goog; Example.aapl]) None.

Definition unavailable : error := RemoteError "quotes" "unavailable".

(** [confFile] holds [stored]; the provider answers the first request and
    fails from the second on. *)
Definition stalled : World :=
  mkWorld {[ confFile := JSONDoc stored ]}
    (fun _ => None) (fun _ => None) (fun _ => None)
    (fun _ => Example.jan3) 0
    (fun k _ => match k with O => Ok (Ok 11%float) | S _ => Err unavailable end)
    0 (fun _ => ("Queued", None)) [] "" [].

(** [confFile] holds [stored] and nothing fails. *)
Definition calm : World :=
  setFiles {[ confFile := JSONDoc stored ]} Example.quiet.

Definition denied : error := PathError "open" confFile "permission denied".

(** As [calm], with a configuration file that cannot be opened for
    writing. *)
Definition readonly : World :=
  mkWorld {[ confFile := JSONDoc stored ]}
    (fun _ => None) (fun _ => Some denied) (fun _ => None)
    (fun _ => Example.jan3) 0 (fun _ _ => Ok (Ok 11%float)) 0
    (fun _ => ("Queued", None)) [] "" [].

(** As [calm], with every quote at 10, the price both lots were bought
    at. *)
Definition fair : World :=
  mkWorld {[ confFile := JSONDoc stored ]}
    (fun _ => None) (fun _ => None) (fun _ => None)
    (fun _ => Example.jan3) 0 (fun _ _ => Ok (Ok 10%float)) 0
    (fun _ => ("Queued", None)) [] "" [].

End Scenario.

(** The rate as the specification words it. *)
Module RateSpec.
Definition secondsPerYear : float := (365.25 * 86400)%float.
End RateSpec.



Lemma exponent_at_purchase_instant (now d : Time) :
  time.Sub now d = 0 ->
  (1 / (time.Seconds (time.Sub now d) / secondsPerYear))%float = infinity.
Proof. intros ->. reflexivity. Qed.

Definition rate_at_infinity (x : float) : float :=
  if (x =? 1)%float then 0%float
  else if is_nan x then nan
  else if (x =? 0)%float then (-100)%float
  else if (x =? -1)%float then 0%float
  else if (abs x <? 1)%float then (-100)%float
  else infinity.

Lemma currentRate_infinite_exponent rest now i price :
  time.Sub now (Investment.Date i) = 0 ->
  currentRate rest now i price
  = rate_at_infinity (price / (Investment.Total i / Investment.Units i))%float.
Proof.
  intros H. unfold currentRate. rewrite (exponent_at_purchase_instant _ _ H).
  unfold math.Pow, rate_at_infinity, math.Abs.
  set (x := (price / _)%float).
  change (infinity =? 0)%float with false.
  change (infinity =? 1)%float with false.
  change (is_nan infinity) with false.
  change (is_infinity infinity) with true.
  change (infinity <? 0)%float with false.
  change (infinity =? infinity)%float with true.
  rewrite Bool.orb_false_r. simpl.
  destruct (x =? 1)%float; [reflexivity|].
  destruct (is_nan x); [reflexivity|].
  destruct (x =? 0)%float; [reflexivity|].
  destruct (x =? -1)%float; [reflexivity|].
  destruct (abs x <? 1)%float; reflexivity.
Qed.

(** C4 (as amended).  When the purchase instant is the instant of the
    calculation, the exponent is [+Inf] and the rate is whatever
    [100 * (math.Pow(x, +Inf) - 1)] is for [x = price / principal], returned
    as it is: [+Inf] or NaN only when [x] is NaN or none of the tests
    [x == 1], [x == 0], [x == -1], [|x| < 1] holds; the finite [-100] when
    [x] is zero or [|x| < 1]; the finite [0] when [x] is [1] or [-1]. *)
Theorem currentRate_at_purchase_instant (rest : float -> float -> float)
    (now : Time) (i : investment) (price : float) :
  time.Sub now (Investment.Date i) = 0 ->
  let x := (price / (Investment.Total i / Investment.Units i))%float in
  let r := currentRate rest now i price in
  r = rate_at_infinity x
  /\ nonfinite r
     = negb ((x =? 1)%float
             || negb (is_nan x)
                && ((x =? 0)%float || (x =? -1)%float || (abs x <? 1)%float)).
Proof.
  intros H x r. subst r.
  rewrite (currentRate_infinite_exponent rest now i price H). fold x.
  split; [reflexivity|].
  unfold rate_at_infinity.
  destruct (x =? 1)%float; [reflexivity|].
  destruct (is_nan x); [reflexivity|].
  destruct (x =? 0)%float; [reflexivity|].
  destruct (x =? -1)%float; [reflexivity|].
  destruct (abs x <? 1)%float; reflexivity.
Qed.

Definition epoch : Time := time.mkTime 0 0 0.

Lemma currentRate_at_purchase_instant_witness :
  currentRate (fun _ _ => nan) epoch (Investment.mk "X" epoch 100 10) 11
  = infinity.
Proof.
  exact (proj1 (currentRate_at_purchase_instant (fun _ _ => nan) epoch
                  (Investment.mk "X" epoch 100 10) 11%float eq_refl)).
Defined.

(** C4 as stated fails: a lot bought at 10 a unit and quoted at 5 at the very
    instant of purchase has the finite rate [-100]. *)
Lemma currentRate_at_purchase_instant_finite :
  ~ (forall (rest : float -> float -> float) (now : Time) (i : investment)
       (price : float),
        time.Sub now (Investment.Date i) = 0 ->
        nonfinite (currentRate rest now i price) = true).
Proof.
  intros H.
  specialize (H (fun _ _ => nan) epoch (Investment.mk "X" epoch 100 10)
                5%float eq_refl).
  discriminate H.
Qed.

(** ** [parseInvestmentLine] *)

(** C8.  A line whose split on the comma has a number of fields other than
    four is refused with the error "investment line format incorrect", and
    the investment returned beside it is the zero value. *)
Theorem parseInvestmentLine_field_count
    (ParseFloat : string -> float * option error) (iStr : string) :
  length (strings.Split iStr ",") <> 4%nat ->
  parseInvestmentLine ParseFloat iStr
  = (investment0, Some (errors_New "investment line format incorrect")).
Proof.
  intros H. unfold parseInvestmentLine.
  destruct (Nat.eqb_spec (length (strings.Split iStr ",")) 4) as [E|E].
  - contradiction.
  - reflexivity.
Qed.

Lemma parseInvestmentLine_field_count_witness :
  parseInvestmentLine Example.ParseFloat "GOOG,1/2/2006,100"
  = (investment0, Some (errors_New "investment line format incorrect")).
Proof.
  apply (parseInvestmentLine_field_count Example.ParseFloat "GOOG,1/2/2006,100").
  vm_compute. discriminate.
Defined.

(** C9.  A line of four fields whose second parses as a date under
    "1/2/2006" and whose third and fourth parse as floats gives, with no
    error, the investment made of the first field as it stands and of the
    three parsed values, whatever these are. *)
Theorem parseInvestmentLine_valid
    (ParseFloat : string -> float * option error)
    (iStr symbol date total units : string) (t : Time) (tot un : float) :
  strings.Split iStr "," = [symbol; date; total; units] ->
  time.Parse mmddyy date = Ok t ->
  ParseFloat total = (tot, None) ->
  ParseFloat units = (un, None) ->
  parseInvestmentLine ParseFloat iStr = (Investment.mk symbol t tot un, None).
Proof.
  intros Hs Hd Ht Hu. unfold parseInvestmentLine.
  rewrite Hs. cbn [length Nat.eqb negb nth].
  rewrite Hd, Ht, Hu. reflexivity.
Qed.

Lemma parseInvestmentLine_valid_witness :
  parseInvestmentLine Example.ParseFloat "goog,1/2/2006,0,-5"
  = (Investment.mk "goog" Example.jan2 0 (-5), None).
Proof.
  apply (parseInvestmentLine_valid Example.ParseFloat
           "goog,1/2/2006,0,-5" "goog" "1/2/2006" "0" "-5");
    vm_compute; reflexivity.
Defined.

(** ** Appending to a history *)

(** [n] runs of the closing statements of the loop body, for one symbol. *)
Definition appendAll (history : gmap string (option (list performance)))
    (symbol : string) (perfs : list performance)
    : gmap string (option (list performance)) :=
  fold_left (fun h p => appendPerformance h symbol p) perfs history.

Lemma index_appendPerformance history symbol perf :
  index (Some (appendPerformance history symbol perf)) symbol
  = Some (elems (index (Some history) symbol) ++ [perf])%list.
Proof.
  unfold appendPerformance, index. rewrite lookup_insert_eq. reflexivity.
Qed.

Lemma lookup_appendPerformance_ne history symbol perf k :
  k <> symbol -> appendPerformance history symbol perf !! k = history !! k.
Proof.
  intros H. unfold appendPerformance. rewrite lookup_insert_ne; congruence.
Qed.

Lemma elems_appendAll history symbol perfs :
  elems (index (Some (appendAll history symbol perfs)) symbol)
  = (elems (index (Some history) symbol) ++ perfs)%list.
Proof.
  revert history. induction perfs as [|p ps IH]; intros history.
  - cbn. rewrite app_nil_r. reflexivity.
  - cbn [appendAll fold_left]. fold (appendAll (appendPerformance history symbol p) symbol ps).
    rewrite IH, index_appendPerformance. cbn [elems].
    rewrite <- List.app_assoc. reflexivity.
Qed.

Lemma lookup_appendAll_ne history symbol perfs k :
  k <> symbol -> appendAll history symbol perfs !! k = history !! k.
Proof.
  intros H. revert history. induction perfs as [|p ps IH]; intros history.
  - reflexivity.
  - cbn [appendAll fold_left]. fold (appendAll (appendPerformance history symbol p) symbol ps).
    rewrite IH. apply lookup_appendPerformance_ne, H.
Qed.

(** C7.  Appending a record for a symbol puts it at the end of that symbol's
    sequence, which is created if the map had none; the records already
    there and the sequences of the other symbols stay as they were; and [N]
    appends make the sequence exactly [N] longer, whatever the dates of the
    records, so a sequence that did not exist has length [N]. *)
Theorem appendPerformance_appends
    (history : gmap string (option (list performance))) (symbol : string) :
  (forall perf,
      index (Some (appendPerformance history symbol perf)) symbol
      = Some (elems (index (Some history) symbol) ++ [perf])%list)
  /\ (forall perf k,
         k <> symbol ->
         appendPerformance history symbol perf !! k = history !! k)
  /\ (forall perfs,
         elems (index (Some (appendAll history symbol perfs)) symbol)
         = (elems (index (Some history) symbol) ++ perfs)%list
         /\ length (elems (index (Some (appendAll history symbol perfs)) symbol))
            = (length (elems (index (Some history) symbol)) + length perfs)%nat
         /\ (history !! symbol = None ->
             elems (index (Some (appendAll history symbol perfs)) symbol) = perfs
             /\ length (elems (index (Some (appendAll history symbol perfs)) symbol))
                = length perfs)).
Proof.
  split; [|split].
  - intros perf. apply index_appendPerformance.
  - intros perf k. apply lookup_appendPerformance_ne.
  - intros perfs. rewrite elems_appendAll. split; [reflexivity|].
    split; [apply length_app|].
    intros Hn. unfold index. rewrite Hn. cbn. auto.
Qed.

(** ** Rendering *)

Lemma append_assoc (a b c : string) : (a ++ b) ++ c = a ++ (b ++ c).
Proof.
  induction a as [|x a IH]; [reflexivity|].
  change (String x ((a ++ b) ++ c) = String x (a ++ (b ++ c))).
  now rewrite IH.
Qed.

Lemma append_nil_r (a : string) : a ++ "" = a.
Proof.
  induction a as [|x a IH]; [reflexivity|].
  change (String x (a ++ "") = String x a).
  now rewrite IH.
Qed.

Lemma joined_cons (x : string) (l : list string) :
  joined (x :: l) = x ++ joined l.
Proof. reflexivity. Qed.

Lemma joined_app (l1 l2 : list string) :
  joined (l1 ++ l2)%list = joined l1 ++ joined l2.
Proof.
  induction l1 as [|x l1 IH]; [reflexivity|].
  change (joined ((x :: l1) ++ l2)%list) with (x ++ joined (l1 ++ l2)%list).
  change (joined (x :: l1)) with (x ++ joined l1).
  now rewrite IH, append_assoc.
Qed.

Lemma Fprintf_line (w : string) (h : performance) :
  Fprintf w "%s %.2f %%\n"
    [fmt.Str (View.day h); fmt.Float (Performance.CompoundInterest h)]
  = w ++ Report.line h.
Proof. reflexivity. Qed.

Lemma Fprintf_header (w : string) (v : investment) :
  Fprintf w "===%s %.2f %s ===\n"
    [fmt.Str (Investment.Symbol v); fmt.Float (Investment.Total v);
     fmt.Str (time.Format (Investment.Date v) humanDate)]
  = w ++ Report.header v.
Proof. reflexivity. Qed.

Lemma Fprintf_blank (w : string) : Fprintf w "\n" [] = w ++ LF.
Proof. reflexivity. Qed.

Lemma Fprintf_line1 (w : string) (h : performance) :
  Fprintf w "%s %.2f\n"
    [fmt.Str (View.day h); fmt.Float (Performance.CompoundInterest h)]
  = w ++ Report1.line h.
Proof. reflexivity. Qed.

Lemma Fprintf_header1 (w : string) (v : investment) :
  Fprintf w "%s %f %s\n"
    [fmt.Str (Investment.Symbol v); fmt.Float (Investment.Total v);
     fmt.Str (time.Format (Investment.Date v) humanDate)]
  = w ++ Report1.header v.
Proof. reflexivity. Qed.

Lemma take_S_lookup {A : Type} (l : list A) (i : nat) (x : A) :
  l !! i = Some x -> take (S i) l = (take i l ++ [x])%list.
Proof. intros H. now apply take_S_r. Qed.

(** The loop over the indices [i-1, ..., 0] of the second revision prints
    the records that the walk over [history[:i]] keeps. *)
Lemma printHistory_walk (history : list performance) (i : nat)
    (seen : gset string) (w : string) :
  (i <= length history)%nat ->
  Rev2.printHistory history i seen w
  = w ++ joined (map Report.line (View.firstSeen seen (rev (take i history)))).
Proof.
  revert seen w. induction i as [|i IH]; intros seen w Hi.
  - cbn. now rewrite append_nil_r.
  - cbn [Rev2.printHistory].
    destruct (history !! i) as [h|] eqn:Hh.
    2:{ apply lookup_ge_None in Hh. lia. }
    rewrite (take_S_lookup _ _ _ Hh), rev_unit. cbn [View.firstSeen].
    fold (View.day h).
    destruct (decide (View.day h ∈ seen)) as [Hin|Hin].
    + apply IH. lia.
    + rewrite Fprintf_line, IH by lia. cbn [map joined].
      now rewrite append_assoc.
Qed.

Lemma printHistory_dedup (history : list performance) (w : string) :
  Rev2.printHistory history (length history) ∅ w
  = w ++ joined (map Report.line (View.dedup history)).
Proof.
  rewrite printHistory_walk by lia. now rewrite firstn_all.
Qed.

Lemma printBlocks_blocks (investments : list investment) (conf : config)
    (w : string) :
  Rev2.printBlocks investments conf w
  = w ++ joined (map (Report.block conf) investments).
Proof.
  revert w. induction investments as [|v rest IH]; intros w.
  - cbn. now rewrite append_nil_r.
  - cbn [Rev2.printBlocks map joined]. rewrite Fprintf_header.
    unfold Report.block at 1.
    destruct (index (Config.History conf) (Investment.Symbol v)) as [h|].
    + rewrite IH, Fprintf_blank, printHistory_dedup.
      now rewrite joined_cons, !append_assoc.
    + rewrite IH. now rewrite joined_cons, append_nil_r, !append_assoc.
Qed.

Lemma printHistory1_rev (history : list performance) (i : nat) (w : string) :
  (i <= length history)%nat ->
  Rev1.printHistory history i w
  = w ++ joined (map Report1.line (rev (take i history))).
Proof.
  revert w. induction i as [|i IH]; intros w Hi.
  - cbn. now rewrite append_nil_r.
  - cbn [Rev1.printHistory].
    destruct (history !! i) as [h|] eqn:Hh.
    2:{ apply lookup_ge_None in Hh. lia. }
    rewrite (take_S_lookup _ _ _ Hh), rev_unit.
    fold (View.day h). rewrite Fprintf_line1, IH by lia. cbn [map joined].
    now rewrite append_assoc.
Qed.

Lemma printBlocks1_blocks (investments : list investment) (conf : config)
    (w : string) :
  Rev1.printBlocks investments conf w
  = w ++ joined (map (Report1.block conf) investments).
Proof.
  revert w. induction investments as [|v rest IH]; intros w.
  - cbn. now rewrite append_nil_r.
  - cbn [Rev1.printBlocks map joined]. rewrite Fprintf_header1.
    unfold Report1.block at 1.
    destruct (index (Config.History conf) (Investment.Symbol v)) as [h|].
    + rewrite IH, printHistory1_rev by lia. rewrite firstn_all. cbn [elems].
      now rewrite joined_cons, !append_assoc.
    + rewrite IH, joined_cons. cbn [elems rev map].
      change (joined []) with "".
      now rewrite append_nil_r, !append_assoc.
Qed.

(** *** The walk that keeps the first record of each day *)








Lemma printAnalysis_blocks (w : string) (conf : config) :
  Rev2.printAnalysis w conf
  = w ++ joined (map (Report.block conf) (elems (Config.Investments conf))).
Proof. apply printBlocks_blocks. Qed.

Lemma printAnalysis1_blocks (w : string) (conf : config) :
  Rev1.printAnalysis w conf
  = w ++ joined (map (Report1.block conf) (elems (Config.Investments conf))).
Proof. apply printBlocks1_blocks. Qed.


(** *** The text of a block *)

Lemma isDigit_digitChar (k : Z) :
  0 <= k < 10 -> time.isDigit (strconv.digitChar k) = true.
Proof.
  intros H.
  assert (k = 0 \/ k = 1 \/ k = 2 \/ k = 3 \/ k = 4 \/ k = 5 \/ k = 6
          \/ k = 7 \/ k = 8 \/ k = 9) as D by lia.
  repeat (destruct D as [->|D]; [reflexivity|]). subst k. reflexivity.
Qed.

Lemma fixed_two_decimals (neg : bool) (n : Z) :
  exists int d1 d2,
    strconv.fixed neg n 2 = int ++ "." ++ String d1 (String d2 "")
    /\ time.isDigit d1 = true /\ time.isDigit d2 = true.
Proof.
  exists ((if neg then "-" else "") ++ time.decimal (n / 10 ^ Z.of_nat 2)),
    (strconv.digitChar ((n / 10) mod 10)), (strconv.digitChar (n mod 10)).
  split; [|split].
  - unfold strconv.fixed. rewrite append_assoc. reflexivity.
  - apply isDigit_digitChar, Z.mod_pos_bound. lia.
  - apply isDigit_digitChar, Z.mod_pos_bound. lia.
Qed.

(** A finite float printed by [%.2f] ends in a point and two digits. *)
Lemma FormatFloat_two_decimals (f : float) :
  json.finite f = true ->
  exists int d1 d2,
    strconv.FormatFloat f 2 = int ++ "." ++ String d1 (String d2 "")
    /\ time.isDigit d1 = true /\ time.isDigit d2 = true.
Proof.
  unfold json.finite, nonfinite. intros H.
  apply Bool.negb_true_iff, Bool.orb_false_iff in H as [Hn Hi].
  unfold strconv.FormatFloat, Prim2SF. rewrite Hn, Hi.
  destruct (PrimFloat.is_zero f); [apply fixed_two_decimals|].
  repeat match goal with
         | |- context [let (_, _) := ?p in _] => destruct p
         | |- context [match shr_m ?s with _ => _ end] => destruct (shr_m s)
         end; apply fixed_two_decimals.
Qed.

(** A date printed by "02-Jan-06": the day on two digits, the short name
    of the month, the last two digits of the year. *)
Lemma Format_humanDate (t : Time) :
  time.Format t humanDate
  = let '(year, month, day) := time.DateOf t in
    time.appendInt day 2 ++ "-"
    ++ nth (Z.to_nat (month - 1)) time.shortMonthNames "" ++ "-"
    ++ time.appendInt (Z.rem (Z.abs year) 100) 2.
Proof.
  unfold time.Format. destruct (time.DateOf t) as [[year month] day].
  cbv [humanDate time.chunks map String.concat time.formatStd].
  reflexivity.
Qed.

Lemma printAnalysis_example :
  Rev2.printAnalysis "" Example_conf
  = "===GOOG 100.00 02-Jan-06 ===" ++ LF
    ++ "===AAPL 50.00 02-Jan-06 ===" ++ LF
    ++ "03-Jan-06 3.00 %" ++ LF
    ++ "02-Jan-06 1.00 %" ++ LF
    ++ LF.
Proof. vm_compute. reflexivity. Qed.

(** C5 as stated fails: the percent sign comes after a space, and no empty
    line follows a block that has no history, so two blocks can touch. *)
Lemma printAnalysis_not_as_claimed :
  ~ (forall conf : config,
        Rev2.printAnalysis "" conf = Report.claimedReport conf).
Proof.
  intros H. specialize (H Example_conf). vm_compute in H. discriminate H.
Qed.

(** C5 (as amended).  The report of the second revision is its blocks one
    after the other.  A block begins with the line
    [===<symbol> <total> <date> ===], the total printed by [%.2f] and the
    date by "02-Jan-06"; a symbol with a history then has one line
    [<date> <rate> %] per record of the deduplicated view, the rate printed
    by [%.2f] and a space before the percent sign, and an empty line; a
    symbol with no history has the header line only, with no empty line
    after it.  [%.2f] prints a finite number with a point and two digits. *)
Theorem printAnalysis_format (w : string) (conf : config) :
  Rev2.printAnalysis w conf
  = w ++ joined (map (Report.block conf) (elems (Config.Investments conf)))
  /\ (forall v,
        index (Config.History conf) (Investment.Symbol v) = None ->
        Report.block conf v = Report.header v)
  /\ (forall v history,
        index (Config.History conf) (Investment.Symbol v) = Some history ->
        Report.block conf v
        = Report.header v ++ joined (map Report.line (View.dedup history)) ++ LF)
  /\ (forall f,
        json.finite f = true ->
        exists int d1 d2,
          strconv.FormatFloat f 2 = int ++ "." ++ String d1 (String d2 "")
          /\ time.isDigit d1 = true /\ time.isDigit d2 = true)
  /\ (forall t,
        time.Format t humanDate
        = let '(year, month, day) := time.DateOf t in
          time.appendInt day 2 ++ "-"
          ++ nth (Z.to_nat (month - 1)) time.shortMonthNames "" ++ "-"
          ++ time.appendInt (Z.rem (Z.abs year) 100) 2).
Proof.
  split; [apply printAnalysis_blocks|].
  split.
  { intros v H. unfold Report.block. rewrite H. apply append_nil_r. }
  split.
  { intros v history H. unfold Report.block. now rewrite H. }
  split; [apply FormatFloat_two_decimals | apply Format_humanDate].
Qed.

Lemma block_ext (conf conf' : config) (investments : list investment) :
  (forall v, v ∈ investments ->
     index (Config.History conf) (Investment.Symbol v)
     = index (Config.History conf') (Investment.Symbol v)) ->
  map (Report.block conf) investments = map (Report.block conf') investments.
Proof.
  induction investments as [|v rest IH]; intros H; [reflexivity|].
  cbn [map]. f_equal.
  - unfold Report.block. rewrite (H v); [reflexivity|]. apply elem_of_cons. now left.
  - apply IH. intros x Hx. apply H. apply elem_of_cons. now right.
Qed.

(** C6.  In both revisions the report is one block per investment, in the
    order of [conf.Investments]: the blocks are the image of that sequence,
    each begins with its investment's symbol, and the history map is only
    looked up at the symbols of the investments, so its other entries and
    the order of its keys play no part. *)
Theorem printAnalysis_order (w : string) (conf : config) :
  Rev1.printAnalysis w conf
  = w ++ joined (map (Report1.block conf) (elems (Config.Investments conf)))
  /\ Rev2.printAnalysis w conf
     = w ++ joined (map (Report.block conf) (elems (Config.Investments conf)))
  /\ length (map (Report.block conf) (elems (Config.Investments conf)))
     = length (elems (Config.Investments conf))
  /\ (forall v, exists rest,
         Report.block conf v = "===" ++ Investment.Symbol v ++ rest)
  /\ (forall v, exists rest,
         Report1.block conf v = Investment.Symbol v ++ rest)
  /\ (forall history',
         (forall v, v ∈ elems (Config.Investments conf) ->
            index (Config.History conf) (Investment.Symbol v)
            = index history' (Investment.Symbol v)) ->
         Rev2.printAnalysis w (Config.mk (Config.Investments conf) history')
         = Rev2.printAnalysis w conf).
Proof.
  split; [apply printAnalysis1_blocks|].
  split; [apply printAnalysis_blocks|].
  split; [apply length_map|].
  split.
  { intros v. eexists. unfold Report.block, Report.header.
    rewrite !append_assoc. reflexivity. }
  split.
  { intros v. eexists. unfold Report1.block, Report1.header.
    rewrite !append_assoc. reflexivity. }
  intros history' H. rewrite !printAnalysis_blocks. cbn [Config.Investments].
  f_equal. f_equal. symmetry. now apply block_ext.
Qed.

(** *** Runs of [analysis] *)

Lemma advance_advance (a b c d : nat) (w : World) :
  advance a b (advance c d w) = advance (c + a) (d + b) w.
Proof.
  unfold advance. cbn. f_equal; symmetry; apply Nat.add_assoc.
Qed.

Lemma advance_eq (t t' f f' : nat) (w : World) :
  t = t' -> f = f' -> advance t f w = advance t' f' w.
Proof. now intros -> ->. Qed.

Lemma advance_0 (w : World) : advance 0 0 w = w.
Proof.
  destruct w. unfold advance. cbn. f_equal; apply Nat.add_0_r.
Qed.

(** [parseConfig] only reads. *)
Lemma parseConfig_world (file : string) (w : World) :
  snd (parseConfig file w) = w.
Proof.
  unfold parseConfig, bind, os.Open, ret.
  destruct (openFault w file) as [e|].
  - now destruct (os.IsNotExist e).
  - destruct (files w !! file); [reflexivity|]. now destruct (os.IsNotExist _).
Qed.

Lemma parseConfig_result (file : string) (w : World) (r : config * option error) :
  fst (parseConfig file w) = r -> parseConfig file w = (r, w).
Proof.
  intros <-. rewrite <- (parseConfig_world file w) at 3.
  now destruct (parseConfig file w).
Qed.

(** One turn of the loop of the second revision when the quote arrives. *)
Lemma analysisLoop_step (rest : float -> float -> float) (i : investment)
    (investments : list investment)
    (history : gmap string (option (list performance))) (w : World) :
  quoteError (market w (fetches w) (Investment.Symbol i)) = None ->
  Rev2.analysisLoop rest (i :: investments) history w
  = Rev2.analysisLoop rest investments
      (appendPerformance history (Investment.Symbol i) (observed rest w i))
      (advance 1 0 (advance 1 0 (advance 0 1 w))).
Proof.
  intros H. cbn [Rev2.analysisLoop]. unfold bind at 1.
  unfold Rev2.yquotes.GetPrice, observed, priceOf.
  destruct (market w (fetches w) (Investment.Symbol i)) as [[p|e]|e];
    try discriminate H.
  unfold bind, time_Now. cbn. now rewrite !Nat.add_0_r.
Qed.

Lemma quoted_step (w : World) (investments : list investment) :
  quoted (market w) (S (fetches w)) investments ->
  quoted (market (advance 1 0 (advance 1 0 (advance 0 1 w))))
    (fetches (advance 1 0 (advance 1 0 (advance 0 1 w)))) investments.
Proof. cbn. now rewrite !Nat.add_0_r, Nat.add_1_r. Qed.

Lemma analysisLoop_aborts (rest : float -> float -> float)
    (pre : list investment) (i : investment) (post : list investment)
    (e : error) (history : gmap string (option (list performance)))
    (w : World) :
  quoted (market w) (fetches w) pre ->
  quoteError (market w (fetches w + length pre)%nat (Investment.Symbol i))
  = Some e ->
  Rev2.analysisLoop rest (pre ++ i :: post) history w
  = ((fst (fst (Rev2.analysisLoop rest pre history w)), Some e),
     advance (2 * length pre) (length pre + 1) w).
Proof.
  revert history w.
  induction pre as [|v pre IH]; intros history w H He.
  - cbn [app length Rev2.analysisLoop] in *. rewrite Nat.add_0_r in He.
    unfold bind, Rev2.yquotes.GetPrice, ret. cbn [fst].
    destruct (market w (fetches w) (Investment.Symbol i)) as [[p|e']|e'];
      cbn in He; try discriminate He; now inversion He.
  - destruct H as [H1 H2]. cbn [app].
    rewrite !(analysisLoop_step rest v _ history w H1).
    rewrite (IH _ _ (quoted_step w pre H2)).
    + f_equal. rewrite !advance_advance. apply advance_eq; cbn [length]; lia.
    + cbn. cbn [length] in He. rewrite <- He. do 2 f_equal. lia.
Qed.

(** The loops of the two revisions ask for the price in two different ways
    and go on alike. *)
Lemma analysisLoop1_eq (rest : float -> float -> float)
    (investments : list investment)
    (history : gmap string (option (list performance))) (w : World) :
  Rev1.analysisLoop rest investments history w
  = Rev2.analysisLoop rest investments history w.
Proof.
  revert history w.
  induction investments as [|i investments IH]; intros history w;
    [reflexivity|].
  cbn [Rev1.analysisLoop Rev2.analysisLoop]. unfold bind at 1 4.
  unfold Rev1.stocks.GetQuote, Rev2.yquotes.GetPrice.
  destruct (market w (fetches w) (Investment.Symbol i)) as [[p|e]|e];
    try reflexivity.
  cbn [Rev1.stocks.GetPrice Rev2.yquotes.Last].
  unfold bind, time_Now. apply IH.
Qed.

(** C2.  When the quote of an investment fails, after those of the
    investments before it arrived, [analysis] returns that error, in both
    revisions.  The loop stops there: its map holds what the investments
    before the failing one added and nothing for the later ones, the clock
    was read twice for each investment before the failing one and the
    provider asked once more than that.  The world is otherwise as it was:
    the files, standard output and the messages sent are unchanged. *)
Theorem analysis_quote_failure (rest : float -> float -> float)
    (confFile : string) (w : World) (conf : config)
    (pre : list investment) (i : investment) (post : list investment)
    (e : error) :
  fst (parseConfig confFile w) = (conf, None) ->
  elems (Config.Investments conf) = (pre ++ i :: post)%list ->
  quoted (market w) (fetches w) pre ->
  quoteError (market w (fetches w + length pre)%nat (Investment.Symbol i))
  = Some e ->
  Rev2.analysis rest confFile w
  = (Some e, advance (2 * length pre) (length pre + 1) w)
  /\ Rev1.analysis rest confFile w
     = (Some e, advance (2 * length pre) (length pre + 1) w)
  /\ (forall history,
        fst (Rev2.analysisLoop rest (pre ++ i :: post) history w)
        = (fst (fst (Rev2.analysisLoop rest pre history w)), Some e)
        /\ fst (Rev1.analysisLoop rest (pre ++ i :: post) history w)
           = (fst (fst (Rev1.analysisLoop rest pre history w)), Some e))
  /\ files (snd (Rev2.analysis rest confFile w)) = files w
  /\ stdout (snd (Rev2.analysis rest confFile w)) = stdout w
  /\ outbox (snd (Rev2.analysis rest confFile w)) = outbox w
  /\ files (snd (Rev1.analysis rest confFile w)) = files w
  /\ stdout (snd (Rev1.analysis rest confFile w)) = stdout w.
Proof.
  intros Hc Hi Hq He.
  assert (Rev2.analysis rest confFile w
          = (Some e, advance (2 * length pre) (length pre + 1) w)) as E2.
  { unfold Rev2.analysis. unfold bind at 1.
    rewrite (parseConfig_result _ _ _ Hc). unfold bind at 1.
    rewrite Hi, (analysisLoop_aborts rest pre i post e _ w Hq He).
    reflexivity. }
  assert (Rev1.analysis rest confFile w
          = (Some e, advance (2 * length pre) (length pre + 1) w)) as E1.
  { unfold Rev1.analysis. unfold bind at 1.
    rewrite (parseConfig_result _ _ _ Hc). unfold bind at 1.
    rewrite Hi, analysisLoop1_eq,
      (analysisLoop_aborts rest pre i post e _ w Hq He).
    reflexivity. }
  split; [exact E2|]. split; [exact E1|]. split.
  { intros history.
    rewrite !analysisLoop1_eq,
      (analysisLoop_aborts rest pre i post e history w Hq He).
    now split. }
  rewrite E2, E1. repeat split.
Qed.

Lemma analysis_quote_failure_witness :
  Rev2.analysis Example.pow_rest Scenario.confFile Scenario.stalled
  = (Some Scenario.unavailable, advance 2 2 Scenario.stalled).
Proof.
  apply (analysis_quote_failure Example.pow_rest Scenario.confFile
           Scenario.stalled Scenario.stored [Example.goog] Example.aapl []
           Scenario.unavailable).
  - reflexivity.
  - reflexivity.
  - cbn. split; reflexivity.
  - reflexivity.
Defined.

(** ** [writeConfig] and [addInvestment] *)

(** The three ways [writeConfig] ends. *)
Lemma writeConfig_cases (file : string) (conf : config) (w : World) :
  match createFault w file with
  | Some e => writeConfig file conf w = (Some e, w)
  | None =>
      if decide (json.encodable conf) then
        match writeFault w file with
        | Some (partial, e) =>
            writeConfig file conf w
            = (Some e, setFiles (<[file := partial]> (files w)) w)
        | None =>
            writeConfig file conf w
            = (None, setFiles (<[file := JSONDoc conf]> (files w)) w)
        end
      else
        writeConfig file conf w
        = (Some (UnsupportedValueError "float64"),
           setFiles (<[file := emptyFile]> (files w)) w)
  end.
Proof.
  unfold writeConfig, bind, os.OpenFile, json.Encode, ret.
  destruct (createFault w file) as [e|]; [reflexivity|].
  destruct (decide (json.encodable conf)) as [H|H]; cbn [createFault];
    [|reflexivity].
  destruct (writeFault w file) as [[partial e]|] eqn:E;
    unfold setFiles; cbn; now rewrite E, insert_insert_eq.
Qed.

Lemma addInvestment_parsed (ParseFloat : string -> float * option error)
    (iStr confFile : string) (w : World) (conf : config) (i : investment) :
  fst (parseConfig confFile w) = (conf, None) ->
  parseInvestmentLine ParseFloat iStr = (i, None) ->
  addInvestment ParseFloat iStr confFile w
  = writeConfig confFile
      (Config.mk (append (Config.Investments conf) i) (Config.History conf)) w.
Proof.
  intros Hc Hp. unfold addInvestment, bind.
  rewrite (parseConfig_result _ _ _ Hc), Hp. reflexivity.
Qed.

(** A total that is not a number is read without complaint, and the
    configuration that holds it cannot be encoded: the file is opened,
    hence emptied, and nothing is written to it. *)
Lemma addInvestment_example :
  parseInvestmentLine Example.ParseFloat "X,1/2/2006,NaN,1"
  = (Investment.mk "X" Example.jan2 nan 1, None)
  /\ addInvestment Example.ParseFloat "X,1/2/2006,NaN,1" Scenario.confFile
       Scenario.calm
     = (Some (UnsupportedValueError "float64"),
        setFiles {[ Scenario.confFile := emptyFile ]} Scenario.calm).
Proof. split; vm_compute; reflexivity. Qed.

(** C10 as stated fails: a line can parse and the stored investments be
    lost all the same. *)
Lemma addInvestment_not_atomic :
  ~ (forall (ParseFloat : string -> float * option error)
       (iStr confFile : string) (w : World) (conf : config) (i : investment),
        ParseFloat "NaN" = (nan, None) ->
        fst (parseConfig confFile w) = (conf, None) ->
        parseInvestmentLine ParseFloat iStr = (i, None) ->
        files (snd (addInvestment ParseFloat iStr confFile w)) !! confFile
        = Some (JSONDoc
                  (Config.mk (append (Config.Investments conf) i)
                     (Config.History conf)))).
Proof.
  intros H.
  specialize (H Example.ParseFloat "X,1/2/2006,NaN,1" Scenario.confFile
                Scenario.calm Scenario.stored
                (Investment.mk "X" Example.jan2 nan 1)
                eq_refl eq_refl (proj1 addInvestment_example)).
  rewrite (proj2 addInvestment_example) in H.
  vm_compute in H. discriminate H.
Qed.

(** C10 (as amended).  With a configuration file that reads as [conf]:
    a line that does not parse makes [addInvestment] return the parser's
    error in an unchanged world; a line that parses as [i] makes it write
    [conf] with [i] appended to the investments and the history as it was.
    That write stores exactly this configuration when the file can be
    opened, the configuration can be encoded and the write goes through;
    it leaves the world unchanged when the file cannot be opened; and it
    leaves the file empty, with an error, when the configuration cannot be
    encoded.  Appending keeps the investments that were there, in their
    order, before the new one. *)
Theorem addInvestment_frame (ParseFloat : string -> float * option error)
    (iStr confFile : string) (w : World) (conf : config) :
  fst (parseConfig confFile w) = (conf, None) ->
  (forall e,
      snd (parseInvestmentLine ParseFloat iStr) = Some e ->
      addInvestment ParseFloat iStr confFile w = (Some e, w))
  /\ (forall i,
        parseInvestmentLine ParseFloat iStr = (i, None) ->
        (createFault w confFile = None ->
         writeFault w confFile = None ->
         json.encodable
           (Config.mk (append (Config.Investments conf) i)
              (Config.History conf)) ->
         addInvestment ParseFloat iStr confFile w
         = (None,
            setFiles
              (<[confFile :=
                   JSONDoc
                     (Config.mk (append (Config.Investments conf) i)
                        (Config.History conf))]> (files w)) w))
        /\ (forall e,
              createFault w confFile = Some e ->
              addInvestment ParseFloat iStr confFile w = (Some e, w))
        /\ (createFault w confFile = None ->
            ~ json.encodable
                (Config.mk (append (Config.Investments conf) i)
                   (Config.History conf)) ->
            exists e,
              addInvestment ParseFloat iStr confFile w
              = (Some e, setFiles (<[confFile := emptyFile]> (files w)) w))
        /\ elems (append (Config.Investments conf) i)
           = (elems (Config.Investments conf) ++ [i])%list).
Proof.
  intros Hc. split.
  - intros e He. unfold addInvestment, bind.
    rewrite (parseConfig_result _ _ _ Hc).
    destruct (parseInvestmentLine ParseFloat iStr) as [i err].
    cbn in He. subst err. reflexivity.
  - intros i Hp. rewrite (addInvestment_parsed _ _ _ _ _ _ Hc Hp).
    pose proof (writeConfig_cases confFile
                  (Config.mk (append (Config.Investments conf) i)
                     (Config.History conf)) w) as W.
    split; [|split; [|split]].
    + intros Hf Hw He. rewrite Hf, Hw in W.
      destruct (decide _) as [_|N]; [exact W|contradiction].
    + intros e Hf. now rewrite Hf in W.
    + intros Hf Hn. rewrite Hf in W.
      destruct (decide _) as [Y|_]; [contradiction|]. eexists. exact W.
    + reflexivity.
Qed.

Lemma addInvestment_frame_witness :
  addInvestment Example.ParseFloat "MSFT,1/2/2006,30,3" Scenario.confFile
    Scenario.calm
  = (None,
     setFiles
       (<[Scenario.confFile :=
            JSONDoc
              (Config.mk
                 (Some [Example.goog; Example.aapl;
                        Investment.mk "MSFT" Example.jan2 30 3])
                 None)]> (files Scenario.calm)) Scenario.calm).
Proof.
  refine (proj1 (proj2 (addInvestment_frame Example.ParseFloat
                          "MSFT,1/2/2006,30,3" Scenario.confFile
                          Scenario.calm Scenario.stored _)
                   (Investment.mk "MSFT" Example.jan2 30 3) _) _ _ _).
  - reflexivity.
  - vm_compute. reflexivity.
  - reflexivity.
  - reflexivity.
  - split; [|exact I]. repeat constructor.
Defined.

(** ** Further properties of the program *)

(** *** [parseConfig] *)

(** A configuration file that does not exist reads as the empty
    configuration with no error, and reading never changes the world. *)
Theorem parseConfig_missing_file (file : string) (w : World) :
  openFault w file = None ->
  files w !! file = None ->
  parseConfig file w = ((config0, None), w)
  /\ forall file' w', snd (parseConfig file' w') = w'.
Proof.
  intros Ho Hf. split; [|apply parseConfig_world].
  unfold parseConfig, bind, os.Open. now rewrite Ho, Hf.
Qed.

Lemma parseConfig_missing_file_witness :
  parseConfig "config.json" Example.quiet = ((config0, None), Example.quiet).
Proof.
  apply (parseConfig_missing_file "config.json" Example.quiet); reflexivity.
Defined.

(** Any other failure to open the file, and any failure to decode it, is
    returned; after a failure to open, the configuration returned beside
    the error is the empty one. *)
Theorem parseConfig_errors (file : string) (w : World) (e : error) :
  os.IsNotExist e = false ->
  (openFault w file = Some e -> parseConfig file w = ((config0, Some e), w))
  /\ (forall partial,
        openFault w file = None ->
        files w !! file = Some (Undecodable partial e) ->
        parseConfig file w = ((partial, Some e), w)).
Proof.
  intros He. split.
  - intros Ho. unfold parseConfig, bind, os.Open. now rewrite Ho, He.
  - intros partial Ho Hf. unfold parseConfig, bind, os.Open.
    now rewrite Ho, Hf.
Qed.

Lemma parseConfig_errors_witness :
  parseConfig "config.json"
    (setFiles {[ "config.json" := emptyFile ]} Example.quiet)
  = ((config0, Some io_EOF),
     setFiles {[ "config.json" := emptyFile ]} Example.quiet).
Proof.
  apply (proj2 (parseConfig_errors "config.json"
                  (setFiles {[ "config.json" := emptyFile ]} Example.quiet)
                  io_EOF eq_refl) config0); reflexivity.
Defined.

(** *** [writeConfig] *)

(** The file is emptied when it is opened, before the configuration is
    encoded: a configuration that cannot be encoded leaves an empty file,
    which [parseConfig] then refuses with the end-of-file error, whatever
    the file held. *)
Theorem writeConfig_unencodable (file : string) (conf : config) (w : World) :
  createFault w file = None ->
  openFault w file = None ->
  ~ json.encodable conf ->
  exists e,
    writeConfig file conf w
    = (Some e, setFiles (<[file := emptyFile]> (files w)) w)
    /\ parseConfig file (snd (writeConfig file conf w))
       = ((config0, Some io_EOF), snd (writeConfig file conf w)).
Proof.
  intros Hc Ho Hn.
  pose proof (writeConfig_cases file conf w) as W. rewrite Hc in W.
  destruct (decide (json.encodable conf)) as [Y|_]; [contradiction|].
  eexists. split; [exact W|]. rewrite W. cbn [snd].
  unfold parseConfig, bind, os.Open. cbn [openFault setFiles files].
  now rewrite Ho, lookup_insert_eq.
Qed.

Lemma writeConfig_unencodable_witness :
  exists e,
    writeConfig Scenario.confFile
      (Config.mk (Some [Investment.mk "X" Example.jan2 nan 1]) None)
      Scenario.calm
    = (Some e,
       setFiles (<[Scenario.confFile := emptyFile]> (files Scenario.calm))
         Scenario.calm)
    /\ parseConfig Scenario.confFile
         (snd (writeConfig Scenario.confFile
                 (Config.mk (Some [Investment.mk "X" Example.jan2 nan 1]) None)
                 Scenario.calm))
       = ((config0, Some io_EOF),
          snd (writeConfig Scenario.confFile
                 (Config.mk (Some [Investment.mk "X" Example.jan2 nan 1]) None)
                 Scenario.calm)).
Proof.
  apply (writeConfig_unencodable Scenario.confFile
           (Config.mk (Some [Investment.mk "X" Example.jan2 nan 1]) None)
           Scenario.calm).
  - reflexivity.
  - reflexivity.
  - intros [H _]. apply Forall_cons in H as [H _]. vm_compute in H.
    discriminate H.
Defined.

(** *** A run of [analysis] that goes through *)

Lemma advance_2_1 (w : World) :
  advance 1 0 (advance 1 0 (advance 0 1 w)) = advance 2 1 w.
Proof. now rewrite !advance_advance. Qed.

Lemma analysisLoop_recorded (rest : float -> float -> float)
    (investments : list investment)
    (history : gmap string (option (list performance))) (w : World) :
  quoted (market w) (fetches w) investments ->
  Rev2.analysisLoop rest investments history w
  = ((recorded rest w investments history, None),
     advance (2 * length investments) (length investments) w).
Proof.
  revert history w.
  induction investments as [|i investments IH]; intros history w H.
  - cbn. now rewrite advance_0.
  - destruct H as [H1 H2].
    rewrite (analysisLoop_step rest i investments history w H1), advance_2_1.
    rewrite IH.
    + cbn [recorded]. f_equal. rewrite advance_advance.
      apply advance_eq; cbn [length]; lia.
    + cbn. now rewrite Nat.add_1_r.
Qed.

Lemma Sprintf_subject (date : string) :
  fmt.Sprintf "Investment Report - %s" [fmt.Str date]
  = "Investment Report - " ++ date.
Proof.
  change ("Investment Report - " ++ (date ++ "")
          = "Investment Report - " ++ date).
  now rewrite append_nil_r.
Qed.

Lemma sendEmail_run (body : string) (w : World) :
  Rev2.sendEmail body w
  = (snd (mailer w (report (clock w (ticks w)) body)),
     setStdout
       (stdout w ++ fst (mailer w (report (clock w (ticks w)) body)) ++ LF)
       (setOutbox (outbox w ++ [report (clock w (ticks w)) body])%list
          (advance 1 0 w))).
Proof.
  unfold Rev2.sendEmail, bind, time_Now, Rev2.mailgun_Send, Rev2.Println, ret.
  rewrite Sprintf_subject. fold (report (clock w (ticks w)) body).
  cbn [mailer advance].
  destruct (mailer w (report (clock w (ticks w)) body)) as [resp err].
  cbn [fst snd String.concat]. reflexivity.
Qed.

(** What is left of a run of the second revision once the configuration
    is stored: printing, then mailing. *)
Lemma analysis_stored (rest : float -> float -> float) (confFile : string)
    (w : World) (conf : config) :
  fst (parseConfig confFile w) = (conf, None) ->
  quoted (market w) (fetches w) (elems (Config.Investments conf)) ->
  createFault w confFile = None ->
  writeFault w confFile = None ->
  json.encodable (updated rest w conf) ->
  Rev2.analysis rest confFile w
  = Rev2.sendEmail (Rev2.printAnalysis "" (updated rest w conf))
      (setStdout
         (Rev2.printAnalysis (stdout w) (updated rest w conf))
         (setFiles (<[confFile := JSONDoc (updated rest w conf)]> (files w))
            (advance (2 * length (elems (Config.Investments conf)))
               (length (elems (Config.Investments conf))) w))).
Proof.
  intros Hc Hq Hf Hw He.
  unfold Rev2.analysis. unfold bind at 1.
  rewrite (parseConfig_result _ _ _ Hc). unfold bind at 1.
  rewrite (analysisLoop_recorded rest _ _ w Hq). fold (updated rest w conf).
  unfold bind at 1.
  pose proof (writeConfig_cases confFile (updated rest w conf)
                (advance (2 * length (elems (Config.Investments conf)))
                   (length (elems (Config.Investments conf))) w)) as W.
  cbn [createFault writeFault advance] in W. rewrite Hf, Hw in W.
  destruct (decide (json.encodable (updated rest w conf))) as [_|N];
    [|contradiction].
  rewrite W. reflexivity.
Qed.

(** When the configuration is read, every quote arrives and the new
    configuration is stored, a run of the second revision: stores the
    investments as they were with the history the loop built; prints the
    report of that configuration on standard output, then the answer of
    the mail service on a line; sends one message whose body is the very
    text it printed, dated by a clock reading taken after the loop; and
    returns the error of the mail service, so a report that was stored and
    printed can still end in an error. *)
Theorem analysis_run (rest : float -> float -> float) (confFile : string)
    (w : World) (conf : config) :
  fst (parseConfig confFile w) = (conf, None) ->
  quoted (market w) (fetches w) (elems (Config.Investments conf)) ->
  createFault w confFile = None ->
  writeFault w confFile = None ->
  json.encodable (updated rest w conf) ->
  let n := length (elems (Config.Investments conf)) in
  let text := Rev2.printAnalysis "" (updated rest w conf) in
  let message := report (clock w (ticks w + 2 * n)%nat) text in
  let w' := snd (Rev2.analysis rest confFile w) in
  fst (Rev2.analysis rest confFile w) = snd (mailer w message)
  /\ files w' = <[confFile := JSONDoc (updated rest w conf)]> (files w)
  /\ stdout w' = stdout w ++ text ++ fst (mailer w message) ++ LF
  /\ outbox w' = (outbox w ++ [message])%list
  /\ ticks w' = (ticks w + 2 * n + 1)%nat
  /\ fetches w' = (fetches w + n)%nat
  /\ stderr w' = stderr w.
Proof.
  intros Hc Hq Hf Hw He n text message w'. subst w'.
  rewrite (analysis_stored rest confFile w conf Hc Hq Hf Hw He).
  rewrite sendEmail_run. fold n text.
  cbn [fst snd files stdout outbox ticks fetches stderr mailer clock
       setStdout setOutbox setFiles advance].
  fold message.
  repeat split.
  - unfold text.
    rewrite (printAnalysis_blocks (stdout w)), (printAnalysis_blocks "").
    now rewrite append_assoc.
  - lia.
Qed.

Lemma analysis_run_witness :
  files (snd (Rev2.analysis Example.pow_rest Scenario.confFile Scenario.fair))
  = <[Scenario.confFile :=
        JSONDoc (updated Example.pow_rest Scenario.fair Scenario.stored)]>
      (files Scenario.fair).
Proof.
  refine (proj1 (proj2 (analysis_run Example.pow_rest Scenario.confFile
                          Scenario.fair Scenario.stored _ _ _ _ _))).
  - reflexivity.
  - cbn. repeat split.
  - reflexivity.
  - reflexivity.
  - refine (bool_decide_unpack (json.encodable _) _). vm_compute. exact I.
Defined.

(** The first revision, under the same conditions, stores the same
    configuration, prints its own report of it and returns no error; it
    sends nothing. *)
Theorem analysis1_run (rest : float -> float -> float) (confFile : string)
    (w : World) (conf : config) :
  fst (parseConfig confFile w) = (conf, None) ->
  quoted (market w) (fetches w) (elems (Config.Investments conf)) ->
  createFault w confFile = None ->
  writeFault w confFile = None ->
  json.encodable (updated rest w conf) ->
  let n := length (elems (Config.Investments conf)) in
  let w' := snd (Rev1.analysis rest confFile w) in
  fst (Rev1.analysis rest confFile w) = None
  /\ files w' = <[confFile := JSONDoc (updated rest w conf)]> (files w)
  /\ stdout w'
     = stdout w
       ++ joined (map (Report1.block (updated rest w conf))
                    (elems (Config.Investments conf)))
  /\ outbox w' = outbox w
  /\ ticks w' = (ticks w + 2 * n)%nat
  /\ fetches w' = (fetches w + n)%nat
  /\ stderr w' = stderr w.
Proof.
  intros Hc Hq Hf Hw He n w'. subst w'.
  pose proof (writeConfig_cases confFile (updated rest w conf)
                (advance (2 * n) n w)) as W.
  cbn [createFault writeFault advance] in W. rewrite Hf, Hw in W.
  destruct (decide (json.encodable (updated rest w conf))) as [_|N];
    [|contradiction].
  assert (Rev1.analysis rest confFile w
          = (None,
             setStdout
               (Rev1.printAnalysis (stdout w) (updated rest w conf))
               (setFiles
                  (<[confFile := JSONDoc (updated rest w conf)]> (files w))
                  (advance (2 * n) n w)))) as E.
  { unfold Rev1.analysis. unfold bind at 1.
    rewrite (parseConfig_result _ _ _ Hc). unfold bind at 1.
    rewrite analysisLoop1_eq, (analysisLoop_recorded rest _ _ w Hq).
    fold (updated rest w conf). fold n. unfold bind at 1.
    rewrite W. reflexivity. }
  rewrite E.
  cbn [fst snd files stdout outbox ticks fetches stderr
       setStdout setFiles advance].
  rewrite printAnalysis1_blocks.
  repeat split.
Qed.

Lemma analysis1_run_witness :
  fst (Rev1.analysis Example.pow_rest Scenario.confFile Scenario.fair) = None.
Proof.
  refine (proj1 (analysis1_run Example.pow_rest Scenario.confFile
                   Scenario.fair Scenario.stored _ _ _ _ _)).
  - reflexivity.
  - cbn. repeat split.
  - reflexivity.
  - reflexivity.
  - refine (bool_decide_unpack (json.encodable _) _). vm_compute. exact I.
Defined.

(** *** Runs of [analysis] that fail after the quotes *)

(** A rate that is not a finite number cannot be encoded.  The run that
    computes one has already opened, hence emptied, the configuration file
    when the encoder refuses: it returns the error, prints and sends
    nothing, and the investments and the history that the file held are
    gone.  Both revisions. *)
Theorem analysis_unencodable (rest : float -> float -> float)
    (confFile : string) (w : World) (conf : config) :
  fst (parseConfig confFile w) = (conf, None) ->
  quoted (market w) (fetches w) (elems (Config.Investments conf)) ->
  createFault w confFile = None ->
  ~ json.encodable (updated rest w conf) ->
  let n := length (elems (Config.Investments conf)) in
  exists e,
    Rev2.analysis rest confFile w
    = (Some e,
       setFiles (<[confFile := emptyFile]> (files w)) (advance (2 * n) n w))
    /\ Rev1.analysis rest confFile w
       = (Some e,
          setFiles (<[confFile := emptyFile]> (files w)) (advance (2 * n) n w)).
Proof.
  intros Hc Hq Hf Hn n.
  pose proof (writeConfig_cases confFile (updated rest w conf)
                (advance (2 * n) n w)) as W.
  cbn [createFault writeFault advance] in W. rewrite Hf in W.
  destruct (decide (json.encodable (updated rest w conf))) as [Y|_];
    [contradiction|].
  eexists. split.
  - unfold Rev2.analysis. unfold bind at 1.
    rewrite (parseConfig_result _ _ _ Hc). unfold bind at 1.
    rewrite (analysisLoop_recorded rest _ _ w Hq).
    fold (updated rest w conf). fold n. unfold bind at 1.
    rewrite W. reflexivity.
  - unfold Rev1.analysis. unfold bind at 1.
    rewrite (parseConfig_result _ _ _ Hc). unfold bind at 1.
    rewrite analysisLoop1_eq, (analysisLoop_recorded rest _ _ w Hq).
    fold (updated rest w conf). fold n. unfold bind at 1.
    rewrite W. reflexivity.
Qed.

Lemma analysis_unencodable_witness :
  exists e,
    Rev2.analysis Example.pow_rest Scenario.confFile Scenario.calm
    = (Some e,
       setFiles (<[Scenario.confFile := emptyFile]> (files Scenario.calm))
         (advance (2 * 2) 2 Scenario.calm))
    /\ Rev1.analysis Example.pow_rest Scenario.confFile Scenario.calm
       = (Some e,
          setFiles (<[Scenario.confFile := emptyFile]> (files Scenario.calm))
            (advance (2 * 2) 2 Scenario.calm)).
Proof.
  refine (analysis_unencodable Example.pow_rest Scenario.confFile
            Scenario.calm Scenario.stored _ _ _ _).
  - reflexivity.
  - cbn. repeat split.
  - reflexivity.
  - refine (bool_decide_eq_false_1 (json.encodable _) _). vm_compute.
    reflexivity.
Defined.

(** When the configuration file cannot be opened for writing, the run
    returns that error after all the quotes were fetched; nothing is
    stored, printed or sent.  Both revisions. *)
Theorem analysis_write_refused (rest : float -> float -> float)
    (confFile : string) (w : World) (conf : config) (e : error) :
  fst (parseConfig confFile w) = (conf, None) ->
  quoted (market w) (fetches w) (elems (Config.Investments conf)) ->
  createFault w confFile = Some e ->
  let n := length (elems (Config.Investments conf)) in
  Rev2.analysis rest confFile w = (Some e, advance (2 * n) n w)
  /\ Rev1.analysis rest confFile w = (Some e, advance (2 * n) n w).
Proof.
  intros Hc Hq Hf n.
  pose proof (writeConfig_cases confFile (updated rest w conf)
                (advance (2 * n) n w)) as W.
  cbn [createFault writeFault advance] in W. rewrite Hf in W.
  split.
  - unfold Rev2.analysis. unfold bind at 1.
    rewrite (parseConfig_result _ _ _ Hc). unfold bind at 1.
    rewrite (analysisLoop_recorded rest _ _ w Hq).
    fold (updated rest w conf). fold n. unfold bind at 1.
    rewrite W. reflexivity.
  - unfold Rev1.analysis. unfold bind at 1.
    rewrite (parseConfig_result _ _ _ Hc). unfold bind at 1.
    rewrite analysisLoop1_eq, (analysisLoop_recorded rest _ _ w Hq).
    fold (updated rest w conf). fold n. unfold bind at 1.
    rewrite W. reflexivity.
Qed.

Lemma analysis_write_refused_witness :
  Rev2.analysis Example.pow_rest Scenario.confFile Scenario.readonly
  = (Some Scenario.denied, advance (2 * 2) 2 Scenario.readonly).
Proof.
  refine (proj1 (analysis_write_refused Example.pow_rest Scenario.confFile
                   Scenario.readonly Scenario.stored Scenario.denied _ _ _)).
  - reflexivity.
  - cbn. repeat split.
  - reflexivity.
Defined.

(** A configuration that cannot be read ends the run at once: the error is
    returned and the world is untouched, so no quote is asked for.  Both
    revisions. *)
Theorem analysis_config_error (rest : float -> float -> float)
    (confFile : string) (w : World) (e : error) :
  snd (fst (parseConfig confFile w)) = Some e ->
  Rev2.analysis rest confFile w = (Some e, w)
  /\ Rev1.analysis rest confFile w = (Some e, w).
Proof.
  intros H.
  pose proof (parseConfig_result confFile w _ eq_refl) as E.
  destruct (fst (parseConfig confFile w)) as [conf err]. cbn in H. subst err.
  unfold Rev2.analysis, Rev1.analysis, bind. now rewrite E.
Qed.

Lemma analysis_config_error_witness :
  Rev2.analysis Example.pow_rest "config.json"
    (setFiles {[ "config.json" := emptyFile ]} Example.quiet)
  = (Some io_EOF, setFiles {[ "config.json" := emptyFile ]} Example.quiet).
Proof.
  refine (proj1 (analysis_config_error Example.pow_rest "config.json"
                   (setFiles {[ "config.json" := emptyFile ]} Example.quiet)
                   io_EOF _)).
  reflexivity.
Defined.

(** *** What the loop of [analysis] records *)



(** *** [main] and [perr] *)

(** [addInvestment] does not look at standard output. *)
Lemma addInvestment_setStdout (ParseFloat : string -> float * option error)
    (iStr confFile s : string) (w : World) :
  addInvestment ParseFloat iStr confFile (setStdout s w)
  = (fst (addInvestment ParseFloat iStr confFile w),
     setStdout s (snd (addInvestment ParseFloat iStr confFile w))).
Proof.
  unfold addInvestment, parseConfig, writeConfig, bind, ret, os.Open,
    os.OpenFile, json.Encode.
  cbn [openFault files createFault writeFault setStdout setFiles].
  destruct (openFault w confFile) as [e|].
  { destruct (os.IsNotExist e); [|reflexivity].
    destruct (parseInvestmentLine ParseFloat iStr) as [i [e'|]];
      [reflexivity|].
    cbn [openFault files createFault writeFault setStdout setFiles].
    destruct (createFault w confFile); [reflexivity|].
    cbn [openFault files createFault writeFault setStdout setFiles].
    destruct (decide _); [|reflexivity].
    destruct (writeFault w confFile) as [[? ?]|]; reflexivity. }
  destruct (files w !! confFile) as [d|].
  - destruct (json.Decode d config0) as [conf [e|]]; [reflexivity|].
    destruct (parseInvestmentLine ParseFloat iStr) as [i [e'|]];
      [reflexivity|].
    cbn [openFault files createFault writeFault setStdout setFiles].
    destruct (createFault w confFile); [reflexivity|].
    cbn [openFault files createFault writeFault setStdout setFiles].
    destruct (decide _); [|reflexivity].
    destruct (writeFault w confFile) as [[? ?]|]; reflexivity.
  - destruct (os.IsNotExist _); [|reflexivity].
    destruct (parseInvestmentLine ParseFloat iStr) as [i [e'|]];
      [reflexivity|].
    cbn [openFault files createFault writeFault setStdout setFiles].
    destruct (createFault w confFile); [reflexivity|].
    cbn [openFault files createFault writeFault setStdout setFiles].
    destruct (decide _); [|reflexivity].
    destruct (writeFault w confFile) as [[? ?]|]; reflexivity.
Qed.

(** [addInvestment] changes nothing but files. *)
Lemma addInvestment_frame_world
    (ParseFloat : string -> float * option error)
    (iStr confFile : string) (w : World) :
  exists f, snd (addInvestment ParseFloat iStr confFile w) = setFiles f w.
Proof.
  assert (w = setFiles (files w) w) as Hw by now destruct w.
  unfold addInvestment. unfold bind at 1.
  pose proof (parseConfig_result confFile w _ eq_refl) as E. rewrite E.
  destruct (fst (parseConfig confFile w)) as [conf [e|]];
    [now exists (files w)|].
  destruct (parseInvestmentLine ParseFloat iStr) as [i [e'|]];
    [now exists (files w)|].
  pose proof (writeConfig_cases confFile
                (Config.mk (append (Config.Investments conf) i)
                   (Config.History conf)) w) as W.
  destruct (createFault w confFile); [rewrite W; now exists (files w)|].
  destruct (decide _); [|rewrite W; now eexists].
  destruct (writeFault w confFile) as [[? ?]|]; rewrite W; now eexists.
Qed.

(** With a line to add, [main] adds it and does nothing else: it reads no
    clock, asks for no quote and sends no message, so no analysis runs.  The
    second revision first prints the word [adding] and the line; the first
    prints nothing.  The error of the operation, if any, is the one thing
    written to standard error. *)
Theorem main_add (rest : float -> float -> float)
    (ParseFloat : string -> float * option error)
    (add config : string) (w : World) :
  add <> "" ->
  let r := addInvestment ParseFloat add config w in
  let w1 := snd (Rev1.main rest ParseFloat add config w) in
  let w2 := snd (Rev2.main rest ParseFloat add config w) in
  (files w1 = files (snd r) /\ files w2 = files (snd r))
  /\ (stdout w1 = stdout w /\ stdout w2 = stdout w ++ "adding " ++ add ++ LF)
  /\ (stderr w1 = (stderr w ++ option_list (fst r))%list
      /\ stderr w2 = (stderr w ++ option_list (fst r))%list)
  /\ (ticks w1 = ticks w /\ ticks w2 = ticks w)
  /\ (fetches w1 = fetches w /\ fetches w2 = fetches w)
  /\ (outbox w1 = outbox w /\ outbox w2 = outbox w).
Proof.
  intros H r w1 w2. subst w1 w2.
  apply String.eqb_neq in H.
  unfold Rev1.main, Rev2.main. rewrite H. cbn [negb].
  unfold bind, Rev2.Println.
  change (String.concat " " ["adding"; add] ++ fmt.lit "\n")
    with (("adding " ++ add) ++ LF).
  rewrite addInvestment_setStdout. fold r.
  destruct (addInvestment_frame_world ParseFloat add config w) as [f Hf].
  fold r in Hf. destruct r as [err wr]. cbn [fst snd] in *. subst wr.
  rewrite append_assoc.
  destruct err as [e|]; cbn; rewrite ?app_nil_r; repeat split.
Qed.

Lemma main_add_witness :
  stdout (snd (Rev2.main Example.pow_rest Example.ParseFloat
                 "MSFT,1/2/2006,30,3" Scenario.confFile Scenario.calm))
  = stdout Scenario.calm ++ "adding " ++ "MSFT,1/2/2006,30,3" ++ LF.
Proof.
  refine (proj2 (proj1 (proj2 (main_add Example.pow_rest Example.ParseFloat
                                 "MSFT,1/2/2006,30,3" Scenario.confFile
                                 Scenario.calm _)))).
  discriminate.
Defined.

(** *** What a run can touch *)

(** The loop only moves the two counters on, whatever the answers. *)
Lemma analysisLoop_frame (rest : float -> float -> float)
    (investments : list investment)
    (history : gmap string (option (list performance))) (w : World) :
  exists t f,
    snd (Rev2.analysisLoop rest investments history w) = advance t f w.
Proof.
  revert history w.
  induction investments as [|i investments IH]; intros history w.
  - exists 0%nat, 0%nat. cbn. now rewrite advance_0.
  - destruct (quoteError (market w (fetches w) (Investment.Symbol i)))
      as [e|] eqn:Hq.
    + exists 0%nat, 1%nat. cbn [Rev2.analysisLoop].
      unfold bind, Rev2.yquotes.GetPrice.
      destruct (market w (fetches w) (Investment.Symbol i)) as [[p|e']|e'];
        [discriminate Hq|reflexivity|reflexivity].
    + rewrite (analysisLoop_step rest i investments history w Hq).
      destruct (IH (appendPerformance history (Investment.Symbol i)
                      (observed rest w i))
                  (advance 1 0 (advance 1 0 (advance 0 1 w)))) as [t [f E]].
      rewrite E, !advance_advance. now eexists _, _.
Qed.

Section Frame.

(** A relation between the world before and the world after that every
    step of a run respects. *)
Variable confFile : string.
Variable R : World -> World -> Prop.
Hypothesis R_refl : forall w, R w w.
Hypothesis R_trans : forall w1 w2 w3, R w1 w2 -> R w2 w3 -> R w1 w3.
Hypothesis R_advance : forall t f w, R w (advance t f w).
Hypothesis R_file :
  forall d w, R w (setFiles (<[confFile := d]> (files w)) w).
Hypothesis R_print : forall text w, R w (setStdout (stdout w ++ text) w).

Lemma R_bind {A B : Type} (c : IO A) (k : A -> IO B) (w : World) :
  R w (snd (c w)) ->
  (forall a w1, R w1 (snd (k a w1))) ->
  R w (snd (bind c k w)).
Proof.
  intros Hc Hk. unfold bind. destruct (c w) as [a w1].
  exact (R_trans _ _ _ Hc (Hk a w1)).
Qed.

Lemma R_writeConfig (conf : config) (w : World) :
  R w (snd (writeConfig confFile conf w)).
Proof.
  pose proof (writeConfig_cases confFile conf w) as W.
  destruct (createFault w confFile); [rewrite W; apply R_refl|].
  destruct (decide _); [|rewrite W; apply R_file].
  destruct (writeFault w confFile) as [[? ?]|]; rewrite W; apply R_file.
Qed.

Lemma R_analysis1 (rest : float -> float -> float) (w : World) :
  R w (snd (Rev1.analysis rest confFile w)).
Proof.
  unfold Rev1.analysis. apply R_bind.
  { rewrite parseConfig_world. apply R_refl. }
  intros [conf [e|]] w1; [apply R_refl|]. apply R_bind.
  { rewrite analysisLoop1_eq.
    destruct (analysisLoop_frame rest (elems (Config.Investments conf))
                (default ∅ (Config.History conf)) w1) as [t [f ->]].
    apply R_advance. }
  intros [h [e|]] w2; [apply R_refl|]. apply R_bind.
  { apply R_writeConfig. }
  intros [e|] w3; [apply R_refl|]. cbn [snd].
  rewrite printAnalysis1_blocks. apply R_print.
Qed.

Hypothesis R_send :
  forall m w, R w (setOutbox (outbox w ++ [m])%list w).

Lemma R_analysis (rest : float -> float -> float) (w : World) :
  R w (snd (Rev2.analysis rest confFile w)).
Proof.
  unfold Rev2.analysis. apply R_bind.
  { rewrite parseConfig_world. apply R_refl. }
  intros [conf [e|]] w1; [apply R_refl|]. apply R_bind.
  { destruct (analysisLoop_frame rest (elems (Config.Investments conf))
                (default ∅ (Config.History conf)) w1) as [t [f ->]].
    apply R_advance. }
  intros [h [e|]] w2; [apply R_refl|]. apply R_bind.
  { apply R_writeConfig. }
  intros [e|] w3; [apply R_refl|]. apply R_bind.
  { cbn [snd]. rewrite printAnalysis_blocks. apply R_print. }
  intros _ w4. rewrite sendEmail_run. cbn [snd].
  eapply R_trans; [apply (R_advance 1 0)|].
  eapply R_trans; [apply R_send|].
  apply (R_print _ (setOutbox _ (advance 1 0 w4))).
Qed.

End Frame.

Lemma extends_refl (confFile : string) (w : World) : extends confFile w w.
Proof.
  repeat split.
  - exists "". now rewrite append_nil_r.
  - exists []. now rewrite app_nil_r.
Qed.

Lemma extends_trans (confFile : string) (w1 w2 w3 : World) :
  extends confFile w1 w2 -> extends confFile w2 w3 -> extends confFile w1 w3.
Proof.
  intros [E1 [F1 [[t1 T1] [s1 S1]]]] [E2 [F2 [[t2 T2] [s2 S2]]]].
  split; [congruence|]. split.
  { intros file H. now rewrite F2, F1. }
  split.
  - exists (t1 ++ t2). now rewrite T2, T1, append_assoc.
  - exists (s1 ++ s2)%list. now rewrite S2, S1, app_assoc.
Qed.

Lemma extends_advance (confFile : string) (t f : nat) (w : World) :
  extends confFile w (advance t f w).
Proof.
  repeat split.
  - exists "". cbn. now rewrite append_nil_r.
  - exists []. cbn. now rewrite app_nil_r.
Qed.

Lemma extends_file (confFile : string) (d : fileData) (w : World) :
  extends confFile w (setFiles (<[confFile := d]> (files w)) w).
Proof.
  repeat split.
  - intros file H. cbn. now rewrite lookup_insert_ne by congruence.
  - exists "". cbn. now rewrite append_nil_r.
  - exists []. cbn. now rewrite app_nil_r.
Qed.

Lemma extends_print (confFile text : string) (w : World) :
  extends confFile w (setStdout (stdout w ++ text) w).
Proof.
  repeat split.
  - now exists text.
  - exists []. cbn. now rewrite app_nil_r.
Qed.

(** What a run of [analysis] can touch, whatever happens: no file other
    than the configuration file and nothing on standard error, and what
    standard output holds and the messages sent are only added to.  Both
    revisions; the first sends nothing. *)
Theorem analysis_frame (rest : float -> float -> float) (confFile : string)
    (w : World) :
  extends confFile w (snd (Rev2.analysis rest confFile w))
  /\ extends confFile w (snd (Rev1.analysis rest confFile w))
  /\ outbox (snd (Rev1.analysis rest confFile w)) = outbox w.
Proof.
  split; [|split].
  - apply R_analysis.
    + apply extends_refl.
    + apply extends_trans.
    + apply extends_advance.
    + apply extends_file.
    + apply extends_print.
    + intros m w0. repeat split.
      * exists "". now rewrite append_nil_r.
      * now exists [m].
  - apply R_analysis1.
    + apply extends_refl.
    + apply extends_trans.
    + apply extends_advance.
    + apply extends_file.
    + apply extends_print.
  - apply (R_analysis1 confFile (fun w1 w2 => outbox w2 = outbox w1));
      try reflexivity.
    intros w1 w2 w3 H1 H2. congruence.
Qed.

Lemma analysis_frame_stderr (rest : float -> float -> float)
    (confFile : string) (w : World) :
  stderr (snd (Rev2.analysis rest confFile w)) = stderr w
  /\ stderr (snd (Rev1.analysis rest confFile w)) = stderr w.
Proof.
  split.
  - apply (R_analysis confFile (fun w1 w2 => stderr w2 = stderr w1));
      try reflexivity.
    intros w1 w2 w3 H1 H2. congruence.
  - apply (R_analysis1 confFile (fun w1 w2 => stderr w2 = stderr w1));
      try reflexivity.
    intros w1 w2 w3 H1 H2. congruence.
Qed.

(** With no line to add, [main] runs the analysis and writes its error, if
    any, to standard error, and nothing else there. *)
Theorem main_analysis (rest : float -> float -> float)
    (ParseFloat : string -> float * option error) (config : string)
    (w : World) :
  stderr (snd (Rev2.main rest ParseFloat "" config w))
  = (stderr w ++ option_list (fst (Rev2.analysis rest config w)))%list
  /\ stderr (snd (Rev1.main rest ParseFloat "" config w))
     = (stderr w ++ option_list (fst (Rev1.analysis rest config w)))%list
  /\ stdout (snd (Rev2.main rest ParseFloat "" config w))
     = stdout (snd (Rev2.analysis rest config w))
  /\ files (snd (Rev2.main rest ParseFloat "" config w))
     = files (snd (Rev2.analysis rest config w)).
Proof.
  destruct (analysis_frame_stderr rest config w) as [S2 S1].
  unfold Rev2.main, Rev1.main. cbn [String.eqb negb]. unfold bind.
  destruct (Rev2.analysis rest config w) as [[e2|] w2];
    destruct (Rev1.analysis rest config w) as [[e1|] w1];
    cbn [fst snd perr stderr setStderr option_list] in *;
    rewrite ?app_nil_r, ?S1, ?S2; repeat split.
Qed.

(** *** Days in the report *)

(** The report prints a year by its last two digits, so two days a
    century apart are printed alike, and the deduplicated view takes the
    records of both for records of the same day: of two such records the
    later one alone is printed. *)
Theorem humanDate_century (t t' : Time) (year month day : Z) :
  0 <= year ->
  time.DateOf t = (year, month, day) ->
  time.DateOf t' = (year + 100, month, day) ->
  time.Format t humanDate = time.Format t' humanDate
  /\ forall (h k : performance) (w : string),
       Performance.Date h = t ->
       Performance.Date k = t' ->
       Rev2.printHistory [h; k] 2 ∅ w = w ++ Report.line k.
Proof.
  intros Hy Ht Ht'.
  assert (time.Format t humanDate = time.Format t' humanDate) as E.
  { rewrite !Format_humanDate, Ht, Ht'.
    replace (Z.rem (Z.abs (year + 100)) 100) with (Z.rem (Z.abs year) 100);
      [reflexivity|].
    rewrite !Z.abs_eq by lia. rewrite !Z.rem_mod_nonneg by lia.
    replace (year + 100) with (year + 1 * 100) by lia.
    now rewrite Z.mod_add by lia. }
  split; [exact E|].
  intros h k w Hh Hk.
  change 2%nat with (length [h; k]).
  rewrite (printHistory_dedup [h; k] w). unfold View.dedup.
  cbn [rev app View.firstSeen].
  assert (View.day h = View.day k) as D
      by (unfold View.day; now rewrite Hh, Hk).
  rewrite D.
  destruct (decide (View.day k ∈ (∅ : gset string))) as [Hin|_];
    [now apply not_elem_of_empty in Hin|].
  destruct (decide (View.day k ∈ {[View.day k]} ∪ (∅ : gset string)))
    as [_|Hn].
  - cbn [map]. rewrite joined_cons. change (joined []) with "".
    now rewrite append_nil_r.
  - contradict Hn. apply elem_of_union_l, elem_of_singleton. reflexivity.
Qed.

Lemma humanDate_century_witness :
  time.Format Example.jan2 humanDate = time.Format Example.jan2_2106 humanDate.
Proof.
  refine (proj1 (humanDate_century Example.jan2 Example.jan2_2106 2006 1 2
                   _ _ _)).
  - lia.
  - reflexivity.
  - reflexivity.
Defined.

(** When no two records of a history are printed with the same day, the
    view keeps them all: the report lists the whole history, last record
    first. *)
Theorem dedup_distinct_days (history : list performance) (w : string) :
  NoDup (map View.day history) ->
  View.dedup history = rev history
  /\ Rev2.printHistory history (length history) ∅ w
     = w ++ joined (map Report.line (rev history)).
Proof.
  intros H.
  assert (forall (walk : list performance) (seen : gset string),
             NoDup (map View.day walk) ->
             (forall x, x ∈ walk -> View.day x ∉ seen) ->
             View.firstSeen seen walk = walk) as F.
  { induction walk as [|x walk IH]; intros seen Hn Hs; [reflexivity|].
    cbn [View.firstSeen]. cbn [map] in Hn. apply NoDup_cons in Hn as [Hx Hn].
    destruct (decide (View.day x ∈ seen)) as [Hin|_].
    { exfalso. apply (Hs x); [apply elem_of_cons; now left|exact Hin]. }
    f_equal. apply IH; [exact Hn|].
    intros y Hy. apply not_elem_of_union. split.
    - apply not_elem_of_singleton. intros E. apply Hx. rewrite <- E.
      apply list_elem_of_In, in_map, list_elem_of_In, Hy.
    - apply Hs, elem_of_cons. now right. }
  assert (View.dedup history = rev history) as E.
  { unfold View.dedup. apply F.
    - rewrite map_rev. apply NoDup_ListNoDup, List.NoDup_rev, NoDup_ListNoDup, H.
    - intros x _. apply not_elem_of_empty. }
  split; [exact E|]. now rewrite printHistory_dedup, E.
Qed.

Lemma dedup_distinct_days_witness :
  View.dedup [Example.perf "AAPL" 1 Example.jan2;
              Example.perf "AAPL" 2 Example.jan3]
  = [Example.perf "AAPL" 2 Example.jan3; Example.perf "AAPL" 1 Example.jan2].
Proof.
  refine (proj1 (dedup_distinct_days
                   [Example.perf "AAPL" 1 Example.jan2;
                    Example.perf "AAPL" 2 Example.jan3] "" _)).
  refine (bool_decide_unpack (NoDup _) _). vm_compute. exact I.
Defined.

(** *** Lines that are refused *)

(** On a line of four fields: a date or a total that does not parse gives
    the zero investment with the error; units that do not parse give the
    error beside an investment that is filled in, with the symbol, the date
    and the total read and whatever number came with the error. *)
Theorem parseInvestmentLine_errors
    (ParseFloat : string -> float * option error)
    (iStr symbol date total units : string) :
  strings.Split iStr "," = [symbol; date; total; units] ->
  (forall e,
      time.Parse mmddyy date = Err e ->
      parseInvestmentLine ParseFloat iStr = (investment0, Some e))
  /\ (forall t e,
        time.Parse mmddyy date = Ok t ->
        snd (ParseFloat total) = Some e ->
        parseInvestmentLine ParseFloat iStr = (investment0, Some e))
  /\ (forall t tot un e,
        time.Parse mmddyy date = Ok t ->
        ParseFloat total = (tot, None) ->
        ParseFloat units = (un, Some e) ->
        parseInvestmentLine ParseFloat iStr
        = (Investment.mk symbol t tot un, Some e)).
Proof.
  intros Hs. unfold parseInvestmentLine. rewrite Hs.
  cbn [length Nat.eqb negb nth]. split; [|split].
  - intros e ->. reflexivity.
  - intros t e -> He. destruct (ParseFloat total) as [tot err].
    cbn in He. now subst err.
  - intros t tot un e -> -> ->. reflexivity.
Qed.

Lemma parseInvestmentLine_errors_witness :
  parseInvestmentLine Example.ParseFloat "GOOG,1/2/2006,100,ten"
  = (Investment.mk "GOOG" Example.jan2 100 0,
     Some (NumError "ParseFloat" "ten")).
Proof.
  refine (proj2 (proj2 (parseInvestmentLine_errors Example.ParseFloat
                          "GOOG,1/2/2006,100,ten" "GOOG" "1/2/2006" "100"
                          "ten" _))
            Example.jan2 100%float 0%float _ _ _ _);
    vm_compute; reflexivity.
Defined.

Lemma digitVal_range (c : ascii) :
  time.isDigit c = true -> 0 <= time.digitVal c <= 9.
Proof.
  unfold time.isDigit, time.digitVal. intros H.
  apply andb_prop in H as [H1 H2].
  apply Nat.leb_le in H1, H2. lia.
Qed.

Lemma getnum_range (s : string) (fixed : bool) (n : Z) (r : string) :
  time.getnum s fixed = Some (n, r) -> 0 <= n <= 99.
Proof.
  unfold time.getnum. destruct s as [|a s]; [discriminate|].
  destruct (time.isDigit a) eqn:Ha; [|discriminate].
  pose proof (digitVal_range a Ha).
  destruct s as [|b s].
  - destruct fixed; [discriminate|]. intros [= <- _]. lia.
  - destruct (time.isDigit b) eqn:Hb.
    + pose proof (digitVal_range b Hb). intros [= <- _]. lia.
    + destruct fixed; [discriminate|]. intros [= <- _]. lia.
Qed.

Lemma getyear_range (s : string) (n : Z) (r : string) :
  time.getyear s = Some (n, r) -> 0 <= n <= 9999.
Proof.
  unfold time.getyear.
  destruct s as [|a [|b [|c [|d s]]]]; try discriminate.
  destruct (time.isDigit a) eqn:Ha; [|discriminate].
  destruct (time.isDigit b) eqn:Hb; [|discriminate].
  destruct (time.isDigit c) eqn:Hc; [|discriminate].
  destruct (time.isDigit d) eqn:Hd; [|discriminate].
  pose proof (digitVal_range a Ha). pose proof (digitVal_range b Hb).
  pose proof (digitVal_range c Hc). pose proof (digitVal_range d Hd).
  cbn [andb]. intros [= <- _]. lia.
Qed.

(** The date of a line that is accepted is midnight, universal time, of a
    day that exists: the month is one of the twelve, the day is one of that
    month in that year, and the year has four digits. *)
Theorem parseInvestmentLine_date
    (ParseFloat : string -> float * option error) (iStr : string)
    (i : investment) :
  parseInvestmentLine ParseFloat iStr = (i, None) ->
  exists year month day,
    Investment.Date i = time.Date year month day
    /\ 0 <= year <= 9999
    /\ 1 <= month <= 12
    /\ 1 <= day <= time.daysIn month year.
Proof.
  unfold parseInvestmentLine.
  destruct (negb _); [discriminate|].
  destruct (time.Parse mmddyy (nth 1 (strings.Split iStr ",") ""))
    as [t|e] eqn:Hp; [|discriminate].
  destruct (ParseFloat (nth 2 _ "")) as [tot [e|]]; [discriminate|].
  destruct (ParseFloat (nth 3 _ "")) as [un err].
  intros [= <- _]. cbn [Investment.Date].
  revert Hp. generalize (nth 1 (strings.Split iStr ",") ""). intros v.
  unfold time.Parse.
  change (time.chunks mmddyy)
    with [time.stdNumMonth; time.stdLit "/"; time.stdDay; time.stdLit "/";
          time.stdLongYear].
  cbn [time.parseStd].
  destruct (time.getnum v false) as [[m v1]|] eqn:Hm; [|discriminate].
  destruct ((m <=? 0) || (12 <? m)) eqn:Hmr; [discriminate|].
  destruct v1 as [|c1 v1]; [discriminate|].
  destruct (Ascii.eqb "/" c1); [|discriminate].
  destruct (time.getnum v1 false) as [[d v2]|] eqn:Hd; [|discriminate].
  destruct v2 as [|c2 v2]; [discriminate|].
  destruct (Ascii.eqb "/" c2); [|discriminate].
  destruct (time.getyear v2) as [[y v3]|] eqn:Hy; [|discriminate].
  destruct (String.eqb v3 ""); [|discriminate].
  destruct ((d <? 1) || (time.daysIn m y <? d)) eqn:Hdr; [discriminate|].
  intros [= <-]. exists y, m, d.
  apply Bool.orb_false_iff in Hmr as [M1 M2], Hdr as [D1 D2].
  apply Z.leb_gt in M1. apply Z.ltb_ge in M2, D1, D2.
  pose proof (getyear_range _ _ _ Hy). split; [reflexivity|lia].
Qed.

Lemma parseInvestmentLine_date_witness :
  exists year month day,
    Investment.Date (Investment.mk "goog" Example.jan2 0 (-5))
    = time.Date year month day
    /\ 0 <= year <= 9999
    /\ 1 <= month <= 12
    /\ 1 <= day <= time.daysIn month year.
Proof.
  apply (parseInvestmentLine_date Example.ParseFloat "goog,1/2/2006,0,-5").
  vm_compute. reflexivity.
Defined.

(** *** The rate at break-even *)

(** A price equal to the cost of a unit gives the rate zero whatever the
    time elapsed, also at the very instant of purchase and for a purchase
    in the future: [math.Pow] returns one for a base of one before it looks
    at the exponent. *)
Theorem currentRate_break_even (rest : float -> float -> float) (now : Time)
    (i : investment) (price : float) :
  (price / (Investment.Total i / Investment.Units i) =? 1)%float = true ->
  currentRate rest now i price = 0%float.
Proof.
  intros H. unfold currentRate, math.Pow. rewrite H, Bool.orb_true_r.
  reflexivity.
Qed.

Lemma currentRate_break_even_witness :
  currentRate Example.pow_rest Example.jan2 Example.goog 10 = 0%float.
Proof.
  apply (currentRate_break_even Example.pow_rest Example.jan2 Example.goog 10).
  reflexivity.
Defined.

(** *** With no configuration file, or one that cannot be read *)

(** Adding to a configuration file that does not exist creates it with
    the one investment, and with no history map. *)
Theorem addInvestment_creates (ParseFloat : string -> float * option error)
    (iStr confFile : string) (w : World) (i : investment) :
  openFault w confFile = None ->
  files w !! confFile = None ->
  createFault w confFile = None ->
  writeFault w confFile = None ->
  parseInvestmentLine ParseFloat iStr = (i, None) ->
  json.investmentOK i = true ->
  addInvestment ParseFloat iStr confFile w
  = (None,
     setFiles (<[confFile := JSONDoc (Config.mk (Some [i]) None)]> (files w))
       w).
Proof.
  intros Ho Hf Hc Hw Hp Hi.
  assert (fst (parseConfig confFile w) = (config0, None)) as E.
  { unfold parseConfig, bind, os.Open. now rewrite Ho, Hf. }
  rewrite (addInvestment_parsed _ _ _ _ _ _ E Hp).
  pose proof (writeConfig_cases confFile
                (Config.mk (append (Config.Investments config0) i)
                   (Config.History config0)) w) as W.
  rewrite Hc, Hw in W.
  destruct (decide _) as [_|N]; [exact W|].
  contradict N. split; [|exact I]. now constructor.
Qed.

Lemma addInvestment_creates_witness :
  addInvestment Example.ParseFloat "MSFT,1/2/2006,30,3" "config.json"
    Example.quiet
  = (None,
     setFiles
       (<["config.json" :=
            JSONDoc
              (Config.mk (Some [Investment.mk "MSFT" Example.jan2 30 3])
                 None)]> (files Example.quiet)) Example.quiet).
Proof.
  apply (addInvestment_creates Example.ParseFloat "MSFT,1/2/2006,30,3"
           "config.json" Example.quiet
           (Investment.mk "MSFT" Example.jan2 30 3));
    vm_compute; reflexivity.
Defined.

(** A configuration that cannot be read is reported before the line is
    looked at: whatever the line, well formed or not, the error returned is
    the one of the configuration, and nothing is written. *)
Theorem addInvestment_config_error
    (ParseFloat : string -> float * option error)
    (iStr confFile : string) (w : World) (e : error) :
  snd (fst (parseConfig confFile w)) = Some e ->
  addInvestment ParseFloat iStr confFile w = (Some e, w).
Proof.
  intros H.
  pose proof (parseConfig_result confFile w _ eq_refl) as E.
  destruct (fst (parseConfig confFile w)) as [conf err]. cbn in H. subst err.
  unfold addInvestment, bind. now rewrite E.
Qed.

Lemma addInvestment_config_error_witness :
  addInvestment Example.ParseFloat "not a line" "config.json"
    (setFiles {[ "config.json" := emptyFile ]} Example.quiet)
  = (Some io_EOF, setFiles {[ "config.json" := emptyFile ]} Example.quiet).
Proof.
  apply (addInvestment_config_error Example.ParseFloat "not a line"
           "config.json"
           (setFiles {[ "config.json" := emptyFile ]} Example.quiet) io_EOF).
  reflexivity.
Defined.

(** A run with no configuration file asks for no quote and creates the
    file, with no investments and an empty history map.  The second
    revision then still sends a message, with an empty body, and prints the
    answer of the mail service; the first prints nothing. *)
Theorem analysis_missing_file (rest : float -> float -> float)
    (confFile : string) (w : World) :
  openFault w confFile = None ->
  files w !! confFile = None ->
  createFault w confFile = None ->
  writeFault w confFile = None ->
  let message := report (clock w (ticks w)) "" in
  let w2 := snd (Rev2.analysis rest confFile w) in
  let w1 := snd (Rev1.analysis rest confFile w) in
  (files w2 = <[confFile := JSONDoc (Config.mk None (Some ∅))]> (files w)
   /\ files w1 = files w2)
  /\ (fetches w2 = fetches w /\ fetches w1 = fetches w)
  /\ outbox w2 = (outbox w ++ [message])%list
  /\ stdout w2 = stdout w ++ fst (mailer w message) ++ LF
  /\ stdout w1 = stdout w
  /\ fst (Rev2.analysis rest confFile w) = snd (mailer w message)
  /\ fst (Rev1.analysis rest confFile w) = None.
Proof.
  intros Ho Hf Hc Hw message w2 w1. subst w2 w1.
  assert (fst (parseConfig confFile w) = (config0, None)) as E.
  { unfold parseConfig, bind, os.Open. now rewrite Ho, Hf. }
  assert (json.encodable (updated rest w config0)) as He.
  { split; [constructor|]. cbn. apply map_Forall_empty. }
  rewrite (analysis_stored rest confFile w config0 E I Hc Hw He).
  rewrite sendEmail_run.
  assert (Rev1.analysis rest confFile w
          = (None,
             setStdout (stdout w)
               (setFiles
                  (<[confFile := JSONDoc (Config.mk None (Some ∅))]> (files w))
                  (advance 0 0 w)))) as E1.
  { pose proof (writeConfig_cases confFile (Config.mk None (Some ∅)) w) as W.
    rewrite Hc, Hw in W.
    destruct (decide _) as [_|N]; [|contradiction].
    unfold Rev1.analysis. unfold bind at 1.
    rewrite (parseConfig_result _ _ _ E). unfold config0.
    cbn [Config.Investments Config.History elems default Rev1.analysisLoop].
    unfold bind, ret. rewrite W. now rewrite advance_0. }
  rewrite E1.
  cbn [fst snd files stdout outbox ticks fetches mailer clock
       setStdout setOutbox setFiles advance Config.Investments elems length
       Nat.mul].
  change (Rev2.printAnalysis (stdout w) (updated rest w config0))
    with (stdout w).
  change (Rev2.printAnalysis "" (updated rest w config0)) with "".
  change (updated rest w config0) with (Config.mk None (Some ∅)).
  rewrite !Nat.add_0_r. fold message. repeat split.
Qed.

Lemma analysis_missing_file_witness :
  outbox (snd (Rev2.analysis Example.pow_rest "config.json" Example.quiet))
  = (outbox Example.quiet
     ++ [report (clock Example.quiet (ticks Example.quiet)) ""])%list.
Proof.
  refine (proj1 (proj2 (proj2 (analysis_missing_file Example.pow_rest
                                 "config.json" Example.quiet _ _ _ _))));
    reflexivity.
Defined.
